(** * Lidar point-cloud extraction of [rosbag_reader] (main.py)

    A shallow embedding of the lidar path of main.py:
    [polar_to_cartesian], [rosbag_reader.raw_hesai_to_cartesian] and the
    per-message body of [rosbag_reader.export_pointclouds], together with
    the interpreter and numpy operations these functions call.

    Modelling conventions.
    - numpy float64 values are real numbers ([R]); rounding, infinities and
      NaN are not represented.
    - A Python exception is a [Raise] outcome; the interpreter state that
      the code reads and writes ([self.calibration_array], the warnings
      issued, the files written) is threaded explicitly.
    - The module hesai_pandar_64_packets is not among the sources: its
      decoder [from_bytes] is a parameter of the model, and so is the
      conversion of one text field to a number (Python's [float]). *)

From Stdlib Require Import List ZArith NArith Reals Lra Lia Bool String.
From Stdlib.Strings Require Import Byte.
Import ListNotations.

Set Implicit Arguments.

(** ** Exceptions and outcomes *)

(** The first group is raised by the interpreter and by numpy in the code
    modelled here.  The last three are the error names of the
    specification; no line of main.py raises them. *)
Inductive exn : Type :=
| UnicodeDecodeError
| ValueError
| IndexError
| TypeError
| AttributeError
| CalibrationFormatError
| MalformedPacketError
| CalibrationMismatchError.

Inductive outcome (A : Type) : Type :=
| Ok (a : A)
| Raise (e : exn).
Arguments Ok {A} a.
Arguments Raise {A} e.

Definition obind {A B : Type} (m : outcome A) (k : A -> outcome B) : outcome B :=
  match m with
  | Ok a => k a
  | Raise e => Raise e
  end.

Notation "x <- m ;; k" := (obind m (fun x => k))
  (at level 61, m at next level, right associativity).

(** What the body of a [for] loop does to the loop: go on, or leave the
    enclosing function with a value. *)
Inductive control (A : Type) : Type :=
| Continue
| Return (a : A).
Arguments Continue {A}.
Arguments Return {A} a.

(** [for x in l: body] inside a function: the value is [None] when the loop
    runs to its end (Python's implicit [return None]). *)
Fixpoint for_in {A B : Type} (body : A -> outcome (control B)) (l : list A)
  : outcome (option B) :=
  match l with
  | [] => Ok None
  | x :: rest =>
      c <- body x ;;
      match c with
      | Return v => Ok (Some v)
      | Continue => for_in body rest
      end
  end.

(** ** Python sequences *)

(** [l[start::step]] for [step >= 1]: [cnt] elements are passed over, one is
    taken, and the countdown restarts at [step - 1]. *)
Fixpoint slice_aux {A : Type} (step cnt : nat) (l : list A) : list A :=
  match l with
  | [] => []
  | x :: rest =>
      match cnt with
      | O => x :: slice_aux step (step - 1) rest
      | S c => slice_aux step c rest
      end
  end.

Definition slice {A : Type} (start step : nat) (l : list A) : list A :=
  slice_aux step start l.

(** [l[-1]] and [l[0]]: [IndexError] on the empty list. *)
Fixpoint getitem_last {A : Type} (l : list A) : outcome A :=
  match l with
  | [] => Raise IndexError
  | [x] => Ok x
  | _ :: rest => getitem_last rest
  end.

Definition getitem_first {A : Type} (l : list A) : outcome A :=
  match l with
  | [] => Raise IndexError
  | x :: _ => Ok x
  end.

(** ** numpy arrays of floats, up to two dimensions *)

Inductive ndarray : Type :=
| Arr0 (x : R)                                  (* shape ()         *)
| Arr1 (xs : list R)                            (* shape (n,)       *)
| Arr2 (ncols : nat) (rows : list (list R)).    (* shape (m, ncols) *)

(** [a[:, k]] *)
Definition column (k : nat) (a : ndarray) : outcome (list R) :=
  match a with
  | Arr2 ncols rows =>
      if (k <? ncols)%nat then Ok (map (fun row => nth k row 0%R) rows)
      else Raise IndexError
  | _ => Raise IndexError
  end.

(** [np.array(rows)] for rows of one width; no row gives shape (0,). *)
Definition np_array (rows : list (list R)) : ndarray :=
  match rows with
  | [] => Arr1 []
  | first :: _ => Arr2 (List.length first) rows
  end.

(** [np.squeeze]: every axis of length one is removed. *)
Definition squeeze (a : ndarray) : ndarray :=
  match a with
  | Arr0 x => Arr0 x
  | Arr1 [x] => Arr0 x
  | Arr1 xs => Arr1 xs
  | Arr2 ncols [row] =>
      match row with
      | [x] => Arr0 x
      | _ => Arr1 row
      end
  | Arr2 ncols rows =>
      if (ncols =? 1)%nat then Arr1 (map (fun row => nth 0 row 0%R) rows)
      else Arr2 ncols rows
  end.

Definition deg2rad (x : R) : R := (x * (PI / 180))%R.

(** [a != b] on floats *)
Definition Rneqb (a b : R) : bool := if Req_dec_T a b then false else true.

(** The elements of [xs] at the positions where [mask] holds. *)
Fixpoint compress {A : Type} (mask : list bool) (xs : list A) : list A :=
  match mask, xs with
  | b :: mask', x :: xs' => if b then x :: compress mask' xs' else compress mask' xs'
  | _, _ => []
  end.

(** [xs[mask]] with a boolean array: numpy raises [IndexError] unless the
    mask is as long as the array. *)
Definition getitem_mask {A : Type} (xs : list A) (mask : list bool) : outcome (list A) :=
  if (List.length mask =? List.length xs)%nat then Ok (compress mask xs)
  else Raise IndexError.

(** Element-wise product of two arrays of one length. *)
Fixpoint np_mul (xs ys : list R) : list R :=
  match xs, ys with
  | x :: xs', y :: ys' => (x * y)%R :: np_mul xs' ys'
  | _, _ => []
  end.

Definition point : Type := (R * R * R)%type.

(** [np.vstack((xs, ys, zs)).T]: one row per position. *)
Fixpoint vstack3_T (xs ys zs : list R) : list point :=
  match xs, ys, zs with
  | x :: xs', y :: ys', z :: zs' => (x, y, z) :: vstack3_T xs' ys' zs'
  | _, _, _ => []
  end.

(** ** The free function of main.py *)

Definition polar_to_cartesian (azimuth elevation distance : R) : point :=
  let elevation := (PI / 2 - elevation)%R in
  let x := (distance * sin elevation * cos azimuth)%R in
  let y := (distance * sin elevation * sin azimuth)%R in
  let z := (distance * cos elevation)%R in
  (x, y, z).

(** ** Decoded packets (the data transfer object of the packet decoder) *)

Record Channel : Type := {
  distance_value : Z;
  reflectance_value : Z
}.

Record Block : Type := {
  azimuth_deg : R;
  channel : list Channel
}.

Record Tail : Type := {
  return_mode : Z
}.

Record HesaiPandar64Packets : Type := {
  blocks : list Block;
  tail : Tail
}.

(** ** Messages of the bag *)

Record Packet : Type := {
  stamp_secs : Z;
  stamp_nsecs : Z;
  data : list byte
}.

Record Msg : Type := {
  packets : list Packet
}.

(** One exported point cloud: the rows of [point_array], the rows of
    [reflectance_array], and the two numbers of the file name. *)
Record Cloud : Type := {
  cloud_points : list point;
  cloud_reflectance : list Z;
  cloud_name : Z * Z
}.

(** ** Interpreter state

    [calibration_array] is the attribute [self.calibration_array] (absent
    until the first assignment); [issued_warnings] collects the messages
    passed to [warnings.warn]; [written_files] the point clouds handed to
    [o3d.io.write_point_cloud], latest first. *)
Record state : Type := {
  calibration_array : option ndarray;
  issued_warnings : list string;
  written_files : list Cloud
}.

Definition M (A : Type) : Type := state -> outcome A * state.

Definition ret {A : Type} (a : A) : M A := fun s => (Ok a, s).

Definition raise {A : Type} (e : exn) : M A := fun s => (Raise e, s).

Definition lift {A : Type} (o : outcome A) : M A := fun s => (o, s).

Definition bind {A B : Type} (m : M A) (k : A -> M B) : M B :=
  fun s =>
    match m s with
    | (Ok a, s') => k a s'
    | (Raise e, s') => (Raise e, s')
    end.

Notation "x <~ m ;; k" := (bind m (fun x => k))
  (at level 61, m at next level, right associativity).

Definition get_calibration_array : M ndarray :=
  fun s =>
    match calibration_array s with
    | Some a => (Ok a, s)
    | None => (Raise AttributeError, s)
    end.

Definition set_calibration_array (a : ndarray) : M unit :=
  fun s => (Ok tt, {| calibration_array := Some a;
                      issued_warnings := issued_warnings s;
                      written_files := written_files s |}).

Definition warn (message : string) : M unit :=
  fun s => (Ok tt, {| calibration_array := calibration_array s;
                      issued_warnings := message :: issued_warnings s;
                      written_files := written_files s |}).

Definition write_point_cloud (c : Cloud) : M unit :=
  fun s => (Ok tt, {| calibration_array := calibration_array s;
                      issued_warnings := issued_warnings s;
                      written_files := c :: written_files s |}).

(** ** Text: [bytes.decode('utf-8')]

    A Python [str] is a sequence of code points. *)
Definition text : Type := list N.

Definition is_continuation (b : N) : bool := ((0x80 <=? b) && (b <=? 0xBF))%N.

Definition between (lo hi b : N) : bool := ((lo <=? b) && (b <=? hi))%N.

(** Strict UTF-8: shortest forms only, no surrogates, nothing above
    U+10FFFF. *)
Fixpoint utf8_code_points (bs : list N) : outcome text :=
  match bs with
  | [] => Ok []
  | b0 :: r0 =>
      if (b0 <? 0x80)%N then
        cs <- utf8_code_points r0 ;; Ok (b0 :: cs)
      else if between 0xC2 0xDF b0 then
        match r0 with
        | b1 :: r1 =>
            if is_continuation b1 then
              cs <- utf8_code_points r1 ;;
              Ok (((b0 - 0xC0) * 64 + (b1 - 0x80))%N :: cs)
            else Raise UnicodeDecodeError
        | _ => Raise UnicodeDecodeError
        end
      else if between 0xE0 0xEF b0 then
        match r0 with
        | b1 :: b2 :: r2 =>
            if (if (b0 =? 0xE0)%N then between 0xA0 0xBF b1
                else if (b0 =? 0xED)%N then between 0x80 0x9F b1
                else is_continuation b1)
               && is_continuation b2 then
              cs <- utf8_code_points r2 ;;
              Ok (((b0 - 0xE0) * 4096 + (b1 - 0x80) * 64 + (b2 - 0x80))%N :: cs)
            else Raise UnicodeDecodeError
        | _ => Raise UnicodeDecodeError
        end
      else if between 0xF0 0xF4 b0 then
        match r0 with
        | b1 :: b2 :: b3 :: r3 =>
            if (if (b0 =? 0xF0)%N then between 0x90 0xBF b1
                else if (b0 =? 0xF4)%N then between 0x80 0x8F b1
                else is_continuation b1)
               && is_continuation b2 && is_continuation b3 then
              cs <- utf8_code_points r3 ;;
              Ok (((b0 - 0xF0) * 262144 + (b1 - 0x80) * 4096
                   + (b2 - 0x80) * 64 + (b3 - 0x80))%N :: cs)
            else Raise UnicodeDecodeError
        | _ => Raise UnicodeDecodeError
        end
      else Raise UnicodeDecodeError
  end.

Definition decode_utf8 (bs : list byte) : outcome text :=
  utf8_code_points (map Byte.to_N bs).

(** ** Text: the pieces of [np.genfromtxt] *)

Definition LF : N := 10%N.
Definition CR : N := 13%N.
Definition SPACE : N := 32%N.
Definition HASH : N := 35%N.
Definition COMMA : N := 44%N.

(** [s.split(sep)] for a one-character separator: at least one piece. *)
Fixpoint split (sep : N) (s : text) : list text :=
  match s with
  | [] => [[]]
  | c :: rest =>
      if (c =? sep)%N then [] :: split sep rest
      else
        match split sep rest with
        | piece :: pieces => (c :: piece) :: pieces
        | [] => [[c]]
        end
  end.

(** The lines that iterating over [StringIO(s)] yields, without their line
    feed: a line ends at each line feed, and the text after the last one is
    a line when it is not empty. *)
Definition readlines (s : text) : list text :=
  let pieces := split LF s in
  match last pieces [] with
  | [] => removelast pieces
  | _ => pieces
  end.

Fixpoint lstrip (chars : N -> bool) (s : text) : text :=
  match s with
  | [] => []
  | c :: rest => if chars c then lstrip chars rest else s
  end.

Definition strip (chars : N -> bool) (s : text) : text :=
  rev (lstrip chars (rev (lstrip chars s))).

Definition blank (c : N) : bool := ((c =? SPACE) || (c =? CR) || (c =? LF))%N.

(** numpy's [LineSplitter] for [delimiter=","], [comments="#"],
    [autostrip=False]: the comment is cut off, the line is stripped of
    [" \r\n"], and an empty line has no field. *)
Definition split_line (line : text) : list text :=
  let line := hd [] (split HASH line) in
  let line := strip blank line in
  match line with
  | [] => []
  | _ => split COMMA line
  end.

Definition has_fields (values : list text) : bool :=
  match values with
  | [] => false
  | _ => true
  end.

(** The rows of fields that remain after the header line is skipped. *)
Definition data_rows (s : text) : list (list text) :=
  let fhd := skipn 1 (readlines s) in
  filter has_fields (map split_line fhd).

(** ** The methods of [rosbag_reader] on the lidar path *)

Section Reader.

(** [HesaiPandar64Packets.from_bytes], of the module
    hesai_pandar_64_packets, which is not among the sources. *)
Variable from_bytes : list byte -> outcome HesaiPandar64Packets.

(** The value numpy stores for one field of the table (Python's [float],
    with numpy's default for a field that is not a number). *)
Variable float_of_text : text -> R.

(** [np.genfromtxt(StringIO(s), delimiter=",", skip_header=1)]: after the
    header line, lines without a field are passed over, the first line
    with fields fixes the number of columns, a line with another number
    of fields makes the call fail once all lines are read, and the result
    is squeezed. *)
Definition genfromtxt (s : text) : M ndarray :=
  let values := data_rows s in
  match values with
  | [] =>
      _ <~ warn "genfromtxt: Empty input file" ;;
      ret (squeeze (np_array []))
  | first_values :: _ =>
      let nbcols := List.length first_values in
      if forallb (fun v => (List.length v =? nbcols)%nat) values then
        ret (squeeze (np_array (map (map float_of_text) values)))
      else raise ValueError
  end.

(** Lines 98 to 100 of [export_pointclouds]: the calibration table of a
    message is read from its last packet and stored in [self]. *)
Definition load_calibration (msg : Msg) : M unit :=
  last_packet <~ lift (getitem_last (packets msg)) ;;
  calibration_array_raw <~ lift (decode_utf8 (skipn 8 (data last_packet))) ;;
  a <~ genfromtxt calibration_array_raw ;;
  set_calibration_array a.

(** Lines 129 to 135: start and step of the iteration over the blocks. *)
Definition block_iter (mode : Z) : nat * nat :=
  if (mode =? 57)%Z then (1%nat, 2%nat) else (0%nat, 1%nat).

(** The blocks the loop of line 138 ranges over. *)
Definition selected_blocks (hesai_udp_dto : HesaiPandar64Packets) : list Block :=
  let '(block_iter_start, block_iter_step) :=
    block_iter (return_mode (tail hesai_udp_dto)) in
  slice block_iter_start block_iter_step (blocks hesai_udp_dto).

(** Lines 139 to 155: the body of the loop over the blocks.  It ends in a
    [return]. *)
Definition block_body (elevation_array azimuth_offset_array : list R) (block : Block)
  : outcome (control (list point * list Z)) :=
  let azimuth_rad := deg2rad (azimuth_deg block) in
  let azimuth_array := map (fun o => (o + azimuth_rad)%R) azimuth_offset_array in
  let distance_array :=
    map (fun c => (IZR (distance_value c) / 1000)%R) (channel block) in
  let reflectance_array := map reflectance_value (channel block) in
  let valid_value_mask := map (fun d => Rneqb d 0%R) distance_array in
  x_array <- (d <- getitem_mask distance_array valid_value_mask ;;
              e <- getitem_mask elevation_array valid_value_mask ;;
              a <- getitem_mask azimuth_array valid_value_mask ;;
              Ok (np_mul (np_mul d (map sin e)) (map cos a))) ;;
  y_array <- (d <- getitem_mask distance_array valid_value_mask ;;
              e <- getitem_mask elevation_array valid_value_mask ;;
              a <- getitem_mask azimuth_array valid_value_mask ;;
              Ok (np_mul (np_mul d (map sin e)) (map sin a))) ;;
  z_array <- (d <- getitem_mask distance_array valid_value_mask ;;
              e <- getitem_mask elevation_array valid_value_mask ;;
              Ok (np_mul d (map cos e))) ;;
  r <- getitem_mask reflectance_array valid_value_mask ;;
  Ok (Return (vstack3_T x_array y_array z_array, r)).

Definition raw_hesai_to_cartesian (packet_data : list byte)
  : M (option (list point * list Z)) :=
  hesai_udp_dto <~ lift (from_bytes packet_data) ;;
  a <~ get_calibration_array ;;
  column_1 <~ lift (column 1 a) ;;
  let elevation_array := map (fun e => (PI / 2 - deg2rad e)%R) column_1 in
  a <~ get_calibration_array ;;
  column_2 <~ lift (column 2 a) ;;
  let azimuth_offset_array := map deg2rad column_2 in
  lift (for_in (block_body elevation_array azimuth_offset_array)
               (selected_blocks hesai_udp_dto)).

(** Lines 102 to 108: the loop over the packets before the last.
    Unpacking [None] into two names is a [TypeError]. *)
Fixpoint packet_loop (ps : list Packet) (point_array : list point)
         (reflectance_array : list Z) : M (list point * list Z) :=
  match ps with
  | [] => ret (point_array, reflectance_array)
  | packet :: rest =>
      r <~ raw_hesai_to_cartesian (data packet) ;;
      match r with
      | None => raise TypeError
      | Some (tmp_point_array, tmp_reflectance_array) =>
          packet_loop rest (point_array ++ tmp_point_array)
                      (reflectance_array ++ tmp_reflectance_array)
      end
  end.

(** Lines 94 to 119: the body of the loop over the messages. *)
Definition export_message (msg : Msg) : M unit :=
  _ <~ load_calibration msg ;;
  arrays <~ packet_loop (removelast (packets msg)) [] [] ;;
  first_packet <~ lift (getitem_first (packets msg)) ;;
  write_point_cloud {| cloud_points := fst arrays;
                       cloud_reflectance := snd arrays;
                       cloud_name := (stamp_secs first_packet,
                                      stamp_nsecs first_packet) |}.

Fixpoint export_pointclouds (msgs : list Msg) : M unit :=
  match msgs with
  | [] => ret tt
  | msg :: rest => _ <~ export_message msg ;; export_pointclouds rest
  end.

End Reader.

Arguments genfromtxt float_of_text s _ : simpl never.

(** ** The loop body, channel by channel

    The body of the block loop works on whole arrays.  Read one channel at
    a time it pairs every channel with its elevation and azimuth, passes
    over the channels whose distance is 0 and converts the others.  The
    lemma [block_body_channels] relates the two. *)

Definition valid_reading (c : Channel) : bool := negb (distance_value c =? 0)%Z.

Definition reading_point (elevation azimuth : R) (c : Channel) : point :=
  let distance := (IZR (distance_value c) / 1000)%R in
  ((distance * sin elevation * cos azimuth)%R,
   (distance * sin elevation * sin azimuth)%R,
   (distance * cos elevation)%R).

Fixpoint block_points (elevation_array azimuth_array : list R) (cs : list Channel)
  : list point :=
  match elevation_array, azimuth_array, cs with
  | e :: es, a :: azs, c :: cs' =>
      if valid_reading c then reading_point e a c :: block_points es azs cs'
      else block_points es azs cs'
  | _, _, _ => []
  end.

Definition block_reflectances (cs : list Channel) : list Z :=
  map reflectance_value (filter valid_reading cs).

Definition sq_norm (p : point) : R :=
  let '(x, y, z) := p in (x * x + y * y + z * z)%R.

Definition origin : point := (0%R, 0%R, 0%R).

(** ** The calibration table as a function of the message

    [uniform_rows] tells whether every row has as many fields as the first.
    [parsed_table] is the table that [load_calibration] stores, computed
    from the message alone; the lemma [load_calibration_parsed] relates the
    two. *)

Definition uniform_rows (rows : list (list text)) : bool :=
  forallb (fun v => (List.length v =? List.length (hd [] rows))%nat) rows.

Definition parsed_table (float_of_text : text -> R) (msg : Msg) : outcome ndarray :=
  last_packet <- getitem_last (packets msg) ;;
  s <- decode_utf8 (skipn 8 (data last_packet)) ;;
  if uniform_rows (data_rows s)
  then Ok (squeeze (np_array (map (map float_of_text) (data_rows s))))
  else Raise ValueError.

(** ** Data of the examples *)

(** Modelled from the spec: the Packet Codec, whose code (module
    hesai_pandar_64_packets) is not among the sources.  A packet shorter
    than the fixed expected length is rejected with [MalformedPacketError];
    the byte layout is not given by the specification and stays a
    parameter. *)
Definition from_bytes_spec (expected_length : nat)
           (layout : list byte -> HesaiPandar64Packets) (packet_data : list byte)
  : outcome HesaiPandar64Packets :=
  if (List.length packet_data <? expected_length)%nat then Raise MalformedPacketError
  else Ok (layout packet_data).

(** A field conversion for the examples: an unsigned decimal integer has
    its value, any other field counts as 0. *)
Fixpoint decimal_value (acc : N) (s : text) : option N :=
  match s with
  | [] => Some acc
  | c :: rest =>
      if between 48 57 c then decimal_value (acc * 10 + (c - 48))%N rest
      else None
  end.

Definition float_of_decimal (s : text) : R :=
  match s with
  | [] => 0%R
  | _ =>
      match decimal_value 0%N s with
      | Some n => IZR (Z.of_N n)
      | None => 0%R
      end
  end.

Definition initial_state : state :=
  {| calibration_array := None; issued_warnings := []; written_files := [] |}.

(** A calibration packet: eight bytes of header, then the table
    [Channel,Elevation,Azimuth / 1,0,0 / 2,10,0]. *)
Definition calibration_data : list byte :=
  repeat x00 8
  ++ list_byte_of_string "Channel,Elevation,Azimuth" ++ [x0a]
  ++ list_byte_of_string "1,0,0" ++ [x0a]
  ++ list_byte_of_string "2,10,0" ++ [x0a].

Definition calibration_packet : Packet :=
  {| stamp_secs := 7; stamp_nsecs := 9; data := calibration_data |}.

Definition calibration_table : ndarray :=
  Arr2 3 [[1%R; 0%R; 0%R]; [2%R; 10%R; 0%R]].

Definition calibrated_state : state :=
  {| calibration_array := Some calibration_table;
     issued_warnings := []; written_files := [] |}.

(** A calibration payload that is not UTF-8, and one whose rows have two
    fields. *)
Definition undecodable_calibration_packet : Packet :=
  {| stamp_secs := 7; stamp_nsecs := 9; data := repeat x00 8 ++ [xff] |}.

Definition two_field_calibration_packet : Packet :=
  {| stamp_secs := 7; stamp_nsecs := 9;
     data := repeat x00 8
             ++ list_byte_of_string "Channel,Elevation" ++ [x0a]
             ++ list_byte_of_string "1,0" ++ [x0a]
             ++ list_byte_of_string "2,10" ++ [x0a] |}.

(** A calibration payload whose second row has one field more than the
    first. *)
Definition ragged_calibration_packet : Packet :=
  {| stamp_secs := 7; stamp_nsecs := 9;
     data := repeat x00 8
             ++ list_byte_of_string "Channel,Elevation,Azimuth" ++ [x0a]
             ++ list_byte_of_string "1,0,0" ++ [x0a]
             ++ list_byte_of_string "2,10,0,5" ++ [x0a] |}.

(** The packet of the end-to-end scenario: one block at azimuth 0 with the
    distances 1000 mm and 0 mm. *)
Definition scenario_block : Block :=
  {| azimuth_deg := 0%R;
     channel := [ {| distance_value := 1000; reflectance_value := 200 |};
                  {| distance_value := 0; reflectance_value := 100 |} ] |}.

Definition single_block_dto (mode : Z) : HesaiPandar64Packets :=
  {| blocks := [ scenario_block ]; tail := {| return_mode := mode |} |}.

(** The packet of the dual-return scenario: four blocks with the azimuths
    10, 10, 20, 20, every reading at a distance above 0; the reflectances
    tell the blocks apart. *)
Definition dual_block (azimuth : R) (tag : Z) : Block :=
  {| azimuth_deg := azimuth;
     channel := [ {| distance_value := 1000; reflectance_value := tag + 1 |};
                  {| distance_value := 2000; reflectance_value := tag + 2 |} ] |}.

Definition dual_dto : HesaiPandar64Packets :=
  {| blocks := [ dual_block 10%R 0; dual_block 10%R 10;
                 dual_block 20%R 20; dual_block 20%R 30 ];
     tail := {| return_mode := 57 |} |}.

(** A dual-return packet with a single block: nothing is selected. *)
Definition short_dual_dto : HesaiPandar64Packets :=
  {| blocks := [ dual_block 10%R 0 ]; tail := {| return_mode := 57 |} |}.

Definition firing_packet : Packet :=
  {| stamp_secs := 5; stamp_nsecs := 6; data := [x01; x02; x03; x04] |}.

Definition truncated_packet : Packet :=
  {| stamp_secs := 5; stamp_nsecs := 6; data := [x01] |}.

(** The decoder of the examples: packets have four bytes, and every
    complete packet decodes to [dto]. *)
Definition example_decoder (dto : HesaiPandar64Packets)
  : list byte -> outcome HesaiPandar64Packets :=
  from_bytes_spec 4 (fun _ => dto).


(** ** [dec_2_dms]

    [divmod(a, b)] on floats, for a divisor other than 0: the quotient is
    the floor of [a / b], as a float, and the remainder is what is left.
    [dec_2_dms_fields] is the tuple that [dec_2_dms] hands to the format
    string (degree, minute, second); the rendering of the three numbers as
    text is not part of the model. *)



(** ** The export of one-dimensional data

    [rosbag_reader.export_1d_data] and [rosbag_reader.__exit__], with
    [vec3_to_list] and [quaternion_to_list].  The bag is a table from topic
    names to a message type and the messages of the topic, each with its
    time in seconds; the files are a list of (name, content) pairs, the
    latest version of a file first.  The rendering of one float by
    [%.12f] is a parameter. *)

From Stdlib Require Import Ascii.

Module Export1D.

Local Open Scope string_scope.

Inductive error : Type :=
| KeyError
| UnboundLocalError
| AttributeError
| TypeError.

Inductive result (A : Type) : Type :=
| Done (a : A)
| Fail (e : error).
Arguments Done {A} a.
Arguments Fail {A} e.

Definition rbind {A B : Type} (m : result A) (k : A -> result B) : result B :=
  match m with
  | Done a => k a
  | Fail e => Fail e
  end.

Notation "x <-- m ;; k" := (rbind m (fun x => k))
  (at level 61, m at next level, right associativity).

Record Vector3 : Type := { vec_x : R; vec_y : R; vec_z : R }.

Record Quaternion : Type := { quat_x : R; quat_y : R; quat_z : R; quat_w : R }.

Definition vec3_to_list (vector3_in : Vector3) : list R :=
  [vec_x vector3_in; vec_y vector3_in; vec_z vector3_in].

Definition quaternion_to_list (quaternion_in : Quaternion) : list R :=
  [quat_x quaternion_in; quat_y quaternion_in; quat_z quaternion_in;
   quat_w quaternion_in].

(** The messages of the four sensor types and of any other type.  Reading
    an attribute that a message does not have is an [AttributeError]. *)
Inductive message : Type :=
| FluidPressure (fluid_pressure variance : R)
| Illuminance (illuminance variance : R)
| Imu (orientation : Quaternion) (linear_acceleration angular_velocity : Vector3)
| MagneticField (magnetic_field : Vector3)
| OtherMessage.

Definition get_fluid_pressure (msg : message) : result R :=
  match msg with
  | FluidPressure p _ => Done p
  | _ => Fail AttributeError
  end.

Definition get_illuminance (msg : message) : result R :=
  match msg with
  | Illuminance i _ => Done i
  | _ => Fail AttributeError
  end.

Definition get_variance (msg : message) : result R :=
  match msg with
  | FluidPressure _ v => Done v
  | Illuminance _ v => Done v
  | _ => Fail AttributeError
  end.

Definition get_orientation (msg : message) : result Quaternion :=
  match msg with
  | Imu o _ _ => Done o
  | _ => Fail AttributeError
  end.

Definition get_linear_acceleration (msg : message) : result Vector3 :=
  match msg with
  | Imu _ l _ => Done l
  | _ => Fail AttributeError
  end.

Definition get_angular_velocity (msg : message) : result Vector3 :=
  match msg with
  | Imu _ _ a => Done a
  | _ => Fail AttributeError
  end.

Definition get_magnetic_field (msg : message) : result Vector3 :=
  match msg with
  | MagneticField m => Done m
  | _ => Fail AttributeError
  end.

Record Topic : Type := {
  msg_type : string;
  messages : list (R * message)
}.

(** [d[key]] on a table of topics: [KeyError] when the key is absent. *)
Fixpoint getitem (d : list (string * Topic)) (key : string) : result Topic :=
  match d with
  | [] => Fail KeyError
  | (k, v) :: rest => if k =? key then Done v else getitem rest key
  end.

(** The latest content of a file, if the file exists. *)
Fixpoint read_file (fs : list (string * string)) (name : string) : option string :=
  match fs with
  | [] => None
  | (n, content) :: rest => if n =? name then Some content else read_file rest name
  end.

Definition newline : string := String (Ascii.ascii_of_nat 10) EmptyString.

Definition starts_with_slash (s : string) : bool :=
  match s with
  | String c _ => Ascii.eqb c "/"%char
  | EmptyString => false
  end.

Fixpoint ends_with_slash (s : string) : bool :=
  match s with
  | EmptyString => false
  | String c EmptyString => Ascii.eqb c "/"%char
  | String _ rest => ends_with_slash rest
  end.

(** [os.path.join(a, b)] of posixpath. *)
Definition path_join (a b : string) : string :=
  if starts_with_slash b then b
  else if (a =? "") || ends_with_slash a then a ++ b
  else a ++ "/" ++ b.

(** The state of the reader: the attributes of [self], the files, the
    warnings issued and the lines printed (both latest first). *)
Record reader : Type := {
  source_bag : list (string * Topic);
  bag_unpack_dir : string;
  exported_data : list string;
  files : list (string * string);
  warnings : list string;
  printed : list string
}.

Definition M (A : Type) : Type := reader -> result A * reader.

Definition ret {A : Type} (a : A) : M A := fun s => (Done a, s).

Definition raise {A : Type} (e : error) : M A := fun s => (Fail e, s).

Definition lift {A : Type} (r : result A) : M A := fun s => (r, s).

Definition bind {A B : Type} (m : M A) (k : A -> M B) : M B :=
  fun s =>
    match m s with
    | (Done a, s') => k a s'
    | (Fail e, s') => (Fail e, s')
    end.

Notation "x <~~ m ;; k" := (bind m (fun x => k))
  (at level 61, m at next level, right associativity).

Definition get_source_bag : M (list (string * Topic)) :=
  fun s => (Done (source_bag s), s).

Definition get_bag_unpack_dir : M string :=
  fun s => (Done (bag_unpack_dir s), s).


Definition print (line : string) : M unit :=
  fun s => (Done tt, {| source_bag := source_bag s;
                        bag_unpack_dir := bag_unpack_dir s;
                        exported_data := exported_data s;
                        files := files s;
                        warnings := warnings s;
                        printed := line :: printed s |}).

Definition warn (message : string) : M unit :=
  fun s => (Done tt, {| source_bag := source_bag s;
                        bag_unpack_dir := bag_unpack_dir s;
                        exported_data := exported_data s;
                        files := files s;
                        warnings := message :: warnings s;
                        printed := printed s |}).

(** [self.exported_data.append(line)] *)
Definition exported_data_append (line : string) : M unit :=
  fun s => (Done tt, {| source_bag := source_bag s;
                        bag_unpack_dir := bag_unpack_dir s;
                        exported_data := (exported_data s ++ [line])%list;
                        files := files s;
                        warnings := warnings s;
                        printed := printed s |}).

Definition set_file (name content : string) : M unit :=
  fun s => (Done tt, {| source_bag := source_bag s;
                        bag_unpack_dir := bag_unpack_dir s;
                        exported_data := exported_data s;
                        files := (name, content) :: files s;
                        warnings := warnings s;
                        printed := printed s |}).

(** [open(name, 'w')]: the file is created or emptied. *)
Definition open_w (name : string) : M unit := set_file name "".

(** [f.write(text)] on the file opened under [name]. *)
Definition f_write (name text : string) : M unit :=
  fun s =>
    match read_file (files s) name with
    | Some content => set_file name (content ++ text) s
    | None => set_file name text s
    end.

Section Formatting.

(** The text that [%.12f] gives for one float. *)
Variable format_12f : R -> string.

Fixpoint join_fields (fields : list string) : string :=
  match fields with
  | [] => ""
  | [f] => f
  | f :: rest => f ++ " " ++ join_fields rest
  end.

(** A format string of [n] specifiers [%.12f], separated by one space and
    followed by a line feed, applied to a tuple: the tuple must have [n]
    elements. *)
Definition percent_format (n : nat) (values : list R) : result string :=
  if (List.length values =? n)%nat
  then Done (join_fields (map format_12f values) ++ newline)
  else Fail TypeError.

(** The values of one line, for each of the four sensor types. *)
Definition pressure_values (t : R) (msg : message) : result (list R) :=
  p <-- get_fluid_pressure msg ;;
  v <-- get_variance msg ;;
  Done [t; p; v].

Definition illuminance_values (t : R) (msg : message) : result (list R) :=
  i <-- get_illuminance msg ;;
  v <-- get_variance msg ;;
  Done [t; i; v].

Definition imu_values (t : R) (msg : message) : result (list R) :=
  o <-- get_orientation msg ;;
  l <-- get_linear_acceleration msg ;;
  a <-- get_angular_velocity msg ;;
  Done ([t] ++ quaternion_to_list o ++ vec3_to_list l ++ vec3_to_list a)%list.

Definition magnetic_field_values (t : R) (msg : message) : result (list R) :=
  m <-- get_magnetic_field msg ;;
  Done ([t] ++ vec3_to_list m)%list.

(** The loop over the messages of the topic, inside [with open(...)]. *)
Fixpoint write_messages (export_filename : string) (n : nat)
         (values : R -> message -> result (list R)) (msgs : list (R * message))
  : M unit :=
  match msgs with
  | [] => ret tt
  | (t, msg) :: rest =>
      vs <~~ lift (values t msg) ;;
      line <~~ lift (percent_format n vs) ;;
      _ <~~ f_write export_filename line ;;
      write_messages export_filename n values rest
  end.

(** One branch of the [if] over the message type: the file name, the
    header, the lines.  The value is the file name bound by the branch. *)
Definition export_branch (default_filename header : string) (n : nat)
           (values : R -> message -> result (list R))
           (topic : Topic) (sensor_name : option string) : M (option string) :=
  let export_filename :=
    match sensor_name with
    | None => default_filename
    | Some name => name ++ ".csv"
    end in
  d <~~ get_bag_unpack_dir ;;
  let export_filename := path_join d export_filename in
  _ <~~ open_w export_filename ;;
  _ <~~ f_write export_filename (header ++ newline) ;;
  _ <~~ write_messages export_filename n values (messages topic) ;;
  ret (Some export_filename).

Definition export_1d_data (topic_filter : string) (sensor_name : option string)
  : M unit :=
  bag <~~ get_source_bag ;;
  topic <~~ lift (getitem bag topic_filter) ;;
  let message_type := msg_type topic in
  _ <~~ print ("DEBUG: message type of topic: " ++ topic_filter ++ " is: "
               ++ message_type) ;;
  export_filename <~~
    (if message_type =? "sensor_msgs/FluidPressure" then
       export_branch "pressure_sensor_0.csv" "timestamp fluid_pressure variance"
                     3 pressure_values topic sensor_name
     else if message_type =? "sensor_msgs/Illuminance" then
       export_branch "illuminance_sensor_0.csv" "timestamp illuminance variance"
                     3 illuminance_values topic sensor_name
     else if message_type =? "sensor_msgs/Imu" then
       export_branch "inertial_measurement_unit_0.csv"
                     "timestamp or_x or_y or_z or_w li_ac_x li_ac_y li_ac_z an_ve_x an_ve_y an_ve_z"
                     11 imu_values topic sensor_name
     else if message_type =? "sensor_msgs/MagneticField" then
       export_branch "magnetic_field_sensor_0.csv" "timestamp x y z"
                     4 magnetic_field_values topic sensor_name
     else
       _ <~~ warn ("The topic " ++ topic_filter
                   ++ " is not available in this bag file!") ;;
       ret None) ;;
  match export_filename with
  | None => raise UnboundLocalError
  | Some export_filename =>
      exported_data_append (export_filename ++ " " ++ message_type ++ " "
                            ++ topic_filter)
  end.

End Formatting.



(** The number of names in a header: one more than it has spaces. *)
Fixpoint count_spaces (s : string) : nat :=
  match s with
  | EmptyString => 0
  | String c rest =>
      if Ascii.eqb c " "%char then S (count_spaces rest) else count_spaces rest
  end.

Definition columns (header : string) : nat := S (count_spaces header).

(** The four branches of [export_1d_data] as a table: default file name,
    header, number of format specifiers and values of a line, by message
    type.  The lemma [export_1d_data_supported] relates the table to the
    chain of tests. *)
Definition supported (message_type : string) : bool :=
  (message_type =? "sensor_msgs/FluidPressure")
  || (message_type =? "sensor_msgs/Illuminance")
  || (message_type =? "sensor_msgs/Imu")
  || (message_type =? "sensor_msgs/MagneticField").

Definition default_filename_of (message_type : string) : string :=
  if message_type =? "sensor_msgs/FluidPressure" then "pressure_sensor_0.csv"
  else if message_type =? "sensor_msgs/Illuminance" then "illuminance_sensor_0.csv"
  else if message_type =? "sensor_msgs/Imu" then "inertial_measurement_unit_0.csv"
  else "magnetic_field_sensor_0.csv".

Definition header_of (message_type : string) : string :=
  if message_type =? "sensor_msgs/FluidPressure" then
    "timestamp fluid_pressure variance"
  else if message_type =? "sensor_msgs/Illuminance" then
    "timestamp illuminance variance"
  else if message_type =? "sensor_msgs/Imu" then
    "timestamp or_x or_y or_z or_w li_ac_x li_ac_y li_ac_z an_ve_x an_ve_y an_ve_z"
  else "timestamp x y z".

Definition specifiers_of (message_type : string) : nat :=
  if message_type =? "sensor_msgs/FluidPressure" then 3
  else if message_type =? "sensor_msgs/Illuminance" then 3
  else if message_type =? "sensor_msgs/Imu" then 11
  else 4.

Definition values_of (message_type : string) : R -> message -> result (list R) :=
  if message_type =? "sensor_msgs/FluidPressure" then pressure_values
  else if message_type =? "sensor_msgs/Illuminance" then illuminance_values
  else if message_type =? "sensor_msgs/Imu" then imu_values
  else magnetic_field_values.

(** A message has the message type of its topic. *)
Definition has_type (message_type : string) (msg : message) : Prop :=
  match msg with
  | FluidPressure _ _ => message_type = "sensor_msgs/FluidPressure"
  | Illuminance _ _ => message_type = "sensor_msgs/Illuminance"
  | Imu _ _ _ => message_type = "sensor_msgs/Imu"
  | MagneticField _ => message_type = "sensor_msgs/MagneticField"
  | OtherMessage => False
  end.

(** The lines of a file for rows of values. *)
Fixpoint render_rows (format_12f : R -> string) (rows : list (list R)) : string :=
  match rows with
  | [] => ""
  | row :: rest =>
      (join_fields (map format_12f row) ++ newline) ++ render_rows format_12f rest
  end.


(** Two states of the reader that differ in their files at most. *)
Definition same_but_files (s s' : reader) : Prop :=
  source_bag s' = source_bag s
  /\ bag_unpack_dir s' = bag_unpack_dir s
  /\ exported_data s' = exported_data s
  /\ warnings s' = warnings s
  /\ printed s' = printed s.

(** Data of the examples. *)
Definition example_bag : list (string * Topic) :=
  [ ("/phone1/android/barometric_pressure",
     {| msg_type := "sensor_msgs/FluidPressure";
        messages := [ (1%R, FluidPressure 1000%R 0%R);
                      (2%R, FluidPressure 1001%R 0%R) ] |});
    ("/note9/android/barometric_pressure",
     {| msg_type := "sensor_msgs/FluidPressure";
        messages := [ (3%R, FluidPressure 990%R 0%R) ] |});
    ("/phone1/android/fix",
     {| msg_type := "sensor_msgs/NavSatFix"; messages := [ (1%R, OtherMessage) ] |}) ].

Definition example_reader : reader :=
  {| source_bag := example_bag;
     bag_unpack_dir := "debug_test_camera_lidar";
     exported_data := [];
     files := [];
     warnings := [];
     printed := [] |}.

Definition example_format (x : R) : string := "0.000000000000".

End Export1D.

(** * Properties *)

(** ** Slices *)

Lemma nth_error_slice_aux (A : Type) (step : nat) (l : list A) :
  (1 <= step)%nat ->
  forall cnt i, nth_error (slice_aux step cnt l) i = nth_error l (cnt + i * step).
Proof.
  intros Hstep. induction l as [| x rest IH]; intros cnt i.
  - simpl. destruct i; destruct (cnt + _)%nat; reflexivity.
  - destruct cnt as [| c]; simpl.
    + destruct i as [| j]; simpl; [reflexivity |].
      rewrite IH. replace (step + j * step)%nat with (S (step - 1 + j * step)) by lia.
      reflexivity.
    + apply IH.
Qed.

Lemma slice_all (A : Type) (l : list A) : slice 0 1 l = l.
Proof.
  unfold slice. induction l as [| x rest IH]; simpl; [reflexivity |].
  now rewrite IH.
Qed.

Lemma length_slice_step_2 (A : Type) (l : list A) :
  List.length (slice_aux 2 1 l) = (List.length l / 2)%nat
  /\ List.length (slice_aux 2 0 l) = (S (List.length l) / 2)%nat.
Proof.
  induction l as [| x rest [IH1 IH0]]; [split; reflexivity |].
  split.
  - exact IH0.
  - change (slice_aux 2 0 (x :: rest)) with (x :: slice_aux 2 1 rest).
    cbn [List.length]. rewrite IH1.
    change (S (S (List.length rest))) with (2 + List.length rest)%nat.
    replace (2 + List.length rest)%nat with (List.length rest + 1 * 2)%nat by lia.
    rewrite Nat.div_add by discriminate. lia.
Qed.

Lemma selected_blocks_dual (bs : list Block) (t : Tail) :
  return_mode t = 57%Z ->
  selected_blocks {| blocks := bs; tail := t |} = slice 1 2 bs.
Proof. intros H. unfold selected_blocks, block_iter. simpl. now rewrite H. Qed.

Lemma selected_blocks_single (bs : list Block) (t : Tail) :
  return_mode t <> 57%Z ->
  selected_blocks {| blocks := bs; tail := t |} = bs.
Proof.
  intros H. unfold selected_blocks, block_iter. simpl.
  destruct (Z.eqb_spec (return_mode t) 57) as [E | _]; [contradiction |].
  apply slice_all.
Qed.

(** C4.  The iteration of line 138 ranges over exactly the blocks at the odd
    indices 1, 3, 5, ... when the return-mode marker is the dual value 57, and
    over all the blocks 0, 1, 2, ... otherwise; of six blocks it takes three
    in dual mode and all six in single mode. *)
Theorem C4_return_mode_selection :
  forall dto : HesaiPandar64Packets,
    let dual := (return_mode (tail dto) =? 57)%Z in
    (forall i : nat,
        nth_error (selected_blocks dto) i
        = nth_error (blocks dto) (if dual then 2 * i + 1 else i))
    /\ List.length (selected_blocks dto)
       = (if dual then List.length (blocks dto) / 2 else List.length (blocks dto))%nat
    /\ (forall b0 b1 b2 b3 b4 b5 : Block,
           selected_blocks {| blocks := [b0; b1; b2; b3; b4; b5]; tail := tail dto |}
           = if dual then [b1; b3; b5] else [b0; b1; b2; b3; b4; b5]).
Proof.
  intros [bs t]. cbn [tail blocks].
  destruct (Z.eqb_spec (return_mode t) 57) as [E | E]; cbv zeta.
  - repeat split.
    + intros i. rewrite (selected_blocks_dual bs t E). unfold slice.
      rewrite nth_error_slice_aux by lia. f_equal. lia.
    + rewrite (selected_blocks_dual bs t E). apply length_slice_step_2.
    + intros. now rewrite selected_blocks_dual.
  - repeat split.
    + intros i. now rewrite (selected_blocks_single bs t E).
    + now rewrite (selected_blocks_single bs t E).
    + intros. now rewrite selected_blocks_single.
Qed.

(** ** The loop body *)

Lemma Rneqb_distance (v : Z) :
  Rneqb (IZR v / 1000) 0 = negb (v =? 0)%Z.
Proof.
  unfold Rneqb.
  destruct (Req_dec_T (IZR v / 1000) 0) as [E | E];
    destruct (Z.eqb_spec v 0) as [Hv | Hv]; simpl; try reflexivity.
  - exfalso. apply Hv. apply eq_IZR_R0.
    unfold Rdiv in E. apply Rmult_integral in E. destruct E as [E | E]; [exact E |].
    exfalso. assert (H : (/ 1000 <> 0)%R) by (apply Rinv_neq_0_compat; lra).
    contradiction.
  - exfalso. apply E. subst v. unfold Rdiv. apply Rmult_0_l.
Qed.

Lemma getitem_mask_same_length (A : Type) (xs : list A) (mask : list bool) :
  List.length mask = List.length xs -> getitem_mask xs mask = Ok (compress mask xs).
Proof. intros H. unfold getitem_mask. now rewrite H, Nat.eqb_refl. Qed.

Lemma getitem_mask_other_length (A : Type) (xs : list A) (mask : list bool) :
  List.length mask <> List.length xs -> getitem_mask xs mask = Raise IndexError.
Proof.
  intros H. unfold getitem_mask.
  destruct (Nat.eqb_spec (List.length mask) (List.length xs)); [contradiction | reflexivity].
Qed.

(** The array expressions of lines 151 to 155, once every index by the mask
    has succeeded. *)
Lemma masked_arrays_channels (cs : list Channel) :
  forall es azs : list R,
    List.length es = List.length cs ->
    List.length azs = List.length cs ->
    let distance_array := map (fun c => (IZR (distance_value c) / 1000)%R) cs in
    let mask := map (fun d => Rneqb d 0%R) distance_array in
    vstack3_T
      (np_mul (np_mul (compress mask distance_array) (map sin (compress mask es)))
              (map cos (compress mask azs)))
      (np_mul (np_mul (compress mask distance_array) (map sin (compress mask es)))
              (map sin (compress mask azs)))
      (np_mul (compress mask distance_array) (map cos (compress mask es)))
    = block_points es azs cs
    /\ compress mask (map reflectance_value cs) = block_reflectances cs.
Proof.
  unfold block_reflectances.
  induction cs as [| c cs' IH]; intros es azs Hes Hazs.
  - destruct es; destruct azs; split; reflexivity.
  - destruct es as [| e es']; [discriminate |].
    destruct azs as [| a azs']; [discriminate |].
    injection Hes as Hes. injection Hazs as Hazs.
    destruct (IH es' azs' Hes Hazs) as [IHp IHr].
    cbn [map compress block_points filter]. rewrite Rneqb_distance.
    change (negb (distance_value c =? 0)%Z) with (valid_reading c).
    destruct (valid_reading c); cbn [map np_mul vstack3_T].
    + rewrite IHp, IHr. split; reflexivity.
    + split; [exact IHp | exact IHr].
Qed.

Lemma block_body_channels (es os : list R) (block : Block) :
  List.length es = List.length (channel block) ->
  List.length os = List.length (channel block) ->
  block_body es os block
  = Ok (Return (block_points es
                  (map (fun o => (o + deg2rad (azimuth_deg block))%R) os)
                  (channel block),
                block_reflectances (channel block))).
Proof.
  intros Hes Hos. unfold block_body.
  set (azs := map (fun o => (o + deg2rad (azimuth_deg block))%R) os).
  set (distance_array := map (fun c => (IZR (distance_value c) / 1000)%R) (channel block)).
  set (mask := map (fun d => Rneqb d 0%R) distance_array).
  assert (Hm : List.length mask = List.length (channel block))
    by (unfold mask, distance_array; now rewrite !length_map).
  assert (Hazs : List.length azs = List.length (channel block))
    by (unfold azs; now rewrite length_map).
  rewrite (getitem_mask_same_length distance_array mask)
    by (unfold distance_array; now rewrite Hm, length_map).
  rewrite (getitem_mask_same_length es mask) by congruence.
  rewrite (getitem_mask_same_length azs mask) by congruence.
  rewrite (getitem_mask_same_length (map reflectance_value (channel block)) mask)
    by (now rewrite Hm, length_map).
  cbn [obind].
  destruct (masked_arrays_channels (channel block) es azs Hes Hazs) as [Hp Hr].
  fold distance_array in Hp, Hr. fold mask in Hp, Hr.
  now rewrite Hp, Hr.
Qed.

Lemma block_body_mismatch (es os : list R) (block : Block) :
  List.length es <> List.length (channel block)
  \/ List.length os <> List.length (channel block) ->
  block_body es os block = Raise IndexError.
Proof.
  intros H. unfold block_body.
  set (azs := map (fun o => (o + deg2rad (azimuth_deg block))%R) os).
  set (distance_array := map (fun c => (IZR (distance_value c) / 1000)%R) (channel block)).
  set (mask := map (fun d => Rneqb d 0%R) distance_array).
  assert (Hm : List.length mask = List.length (channel block))
    by (unfold mask, distance_array; now rewrite !length_map).
  rewrite (getitem_mask_same_length distance_array mask)
    by (unfold distance_array; now rewrite Hm, length_map).
  destruct (Nat.eq_dec (List.length es) (List.length (channel block))) as [Hes | Hes].
  - destruct H as [H | H]; [contradiction |].
    rewrite (getitem_mask_same_length es mask) by congruence.
    rewrite (getitem_mask_other_length azs mask)
      by (unfold azs; rewrite length_map; congruence).
    reflexivity.
  - rewrite (getitem_mask_other_length es mask) by congruence.
    reflexivity.
Qed.

(** The body never asks for another iteration, and [IndexError] is the only
    exception it raises. *)
Lemma block_body_cases (es os : list R) (block : Block) :
  block_body es os block
  = Ok (Return (block_points es
                  (map (fun o => (o + deg2rad (azimuth_deg block))%R) os)
                  (channel block),
                block_reflectances (channel block)))
  \/ block_body es os block = Raise IndexError.
Proof.
  destruct (Nat.eq_dec (List.length es) (List.length (channel block))) as [Hes | Hes];
    [| right; apply block_body_mismatch; now left].
  destruct (Nat.eq_dec (List.length os) (List.length (channel block))) as [Hos | Hos];
    [| right; apply block_body_mismatch; now right].
  left. now apply block_body_channels.
Qed.

Lemma block_body_Return_inv (es os : list R) (block : Block)
      (pts : list point) (refl : list Z) :
  block_body es os block = Ok (Return (pts, refl)) ->
  List.length es = List.length (channel block)
  /\ List.length os = List.length (channel block)
  /\ pts = block_points es (map (fun o => (o + deg2rad (azimuth_deg block))%R) os)
                        (channel block)
  /\ refl = block_reflectances (channel block).
Proof.
  intros H.
  destruct (Nat.eq_dec (List.length es) (List.length (channel block))) as [Hes | Hes];
    [| rewrite block_body_mismatch in H by (now left); discriminate].
  destruct (Nat.eq_dec (List.length os) (List.length (channel block))) as [Hos | Hos];
    [| rewrite block_body_mismatch in H by (now right); discriminate].
  rewrite (block_body_channels es os block Hes Hos) in H.
  injection H as Hp Hr. repeat split; congruence.
Qed.

(** ** Geometry *)

Lemma sphere_identity (d e a : R) :
  (d * sin e * cos a * (d * sin e * cos a)
   + d * sin e * sin a * (d * sin e * sin a)
   + d * cos e * (d * cos e) = d * d)%R.
Proof.
  pose proof (sin2_cos2 e) as He. pose proof (sin2_cos2 a) as Ha.
  unfold Rsqr in He, Ha.
  replace (d * sin e * cos a * (d * sin e * cos a)
           + d * sin e * sin a * (d * sin e * sin a)
           + d * cos e * (d * cos e))%R
    with (d * d * (sin e * sin e * (sin a * sin a + cos a * cos a) + cos e * cos e))%R
    by ring.
  rewrite Ha, Rmult_1_r, He. ring.
Qed.

Lemma sq_norm_reading_point (e a : R) (c : Channel) :
  sq_norm (reading_point e a c)
  = (IZR (distance_value c) / 1000 * (IZR (distance_value c) / 1000))%R.
Proof. unfold reading_point, sq_norm. apply sphere_identity. Qed.

Lemma sq_norm_polar_to_cartesian (azimuth elevation distance : R) :
  sq_norm (polar_to_cartesian azimuth elevation distance) = (distance * distance)%R.
Proof. unfold polar_to_cartesian, sq_norm. apply sphere_identity. Qed.

Lemma within_tolerance (n d : R) :
  n = (d * d)%R -> (Rabs (n - d * d) <= / 1000000 * (d * d))%R.
Proof.
  intros ->. rewrite Rminus_diag, Rabs_R0.
  apply Rmult_le_pos; [| apply Rle_0_sqr].
  apply Rlt_le, Rinv_0_lt_compat. lra.
Qed.

Lemma valid_reading_distance (c : Channel) :
  valid_reading c = true -> (IZR (distance_value c) / 1000 <> 0)%R.
Proof.
  unfold valid_reading. intros H E.
  assert (Hb : Rneqb (IZR (distance_value c) / 1000) 0 = true)
    by (now rewrite Rneqb_distance).
  unfold Rneqb in Hb. destruct (Req_dec_T _ 0); [discriminate | contradiction].
Qed.

Lemma reading_point_not_origin (e a : R) (c : Channel) :
  valid_reading c = true -> reading_point e a c <> origin.
Proof.
  intros Hv E. apply valid_reading_distance in Hv.
  assert (Hn : sq_norm (reading_point e a c) = sq_norm origin) by now rewrite E.
  rewrite sq_norm_reading_point in Hn. unfold origin, sq_norm in Hn.
  replace (0 * 0 + 0 * 0 + 0 * 0)%R with 0%R in Hn by ring.
  apply Rmult_integral in Hn. tauto.
Qed.

(** The points of a block stand, in order, for the channels of the block
    whose distance is not 0. *)
Lemma block_points_channels (cs : list Channel) :
  forall es azs : list R,
    List.length es = List.length cs ->
    List.length azs = List.length cs ->
    Forall2 (fun p c => valid_reading c = true
                        /\ exists e a, In e es /\ In a azs /\ p = reading_point e a c)
            (block_points es azs cs) (filter valid_reading cs).
Proof.
  induction cs as [| c cs' IH]; intros es azs Hes Hazs.
  - destruct es; destruct azs; constructor.
  - destruct es as [| e es']; [discriminate |].
    destruct azs as [| a azs']; [discriminate |].
    injection Hes as Hes. injection Hazs as Hazs.
    specialize (IH es' azs' Hes Hazs).
    assert (IH' : Forall2
                    (fun p c0 => valid_reading c0 = true
                                 /\ exists e0 a0, In e0 (e :: es') /\ In a0 (a :: azs')
                                                  /\ p = reading_point e0 a0 c0)
                    (block_points es' azs' cs') (filter valid_reading cs')).
    { eapply Forall2_impl; [| exact IH].
      intros p c0 [Hv (e0 & a0 & He0 & Ha0 & Hp)].
      split; [exact Hv |]. exists e0, a0. repeat split; auto using in_cons. }
    cbn [block_points filter]. destruct (valid_reading c) eqn:Hv; [| exact IH'].
    constructor; [| exact IH'].
    split; [exact Hv |]. exists e, a. repeat split; auto using in_eq.
Qed.

Lemma block_points_all_zero (cs : list Channel) :
  Forall (fun c => distance_value c = 0%Z) cs ->
  forall es azs, block_points es azs cs = [] /\ block_reflectances cs = [].
Proof.
  unfold block_reflectances.
  induction 1 as [| c cs' Hc _ IH]; intros es azs.
  - destruct es; destruct azs; split; reflexivity.
  - assert (Hv : valid_reading c = false) by (unfold valid_reading; now rewrite Hc).
    cbn [filter]. rewrite Hv.
    destruct es as [| e es']; [split; [reflexivity | apply (IH [] [])] |].
    destruct azs as [| a azs']; [split; [reflexivity | apply (IH [] [])] |].
    cbn [block_points]. rewrite Hv. apply IH.
Qed.

(** C3.  When the loop body returns for a block, the points it returns stand
    one for one, in channel order, for the channels whose distance is not 0
    (the reflectances are those of the same channels): a channel with
    distance 0 gives no point, no returned point is the origin, and a block
    whose distances are all 0 gives no point at all. *)
Theorem C3_zero_distance_dropped :
  forall (es os : list R) (block : Block) (pts : list point) (refl : list Z),
    block_body es os block = Ok (Return (pts, refl)) ->
    Forall2 (fun p c => distance_value c <> 0%Z /\ p <> origin)
            pts (filter valid_reading (channel block))
    /\ refl = map reflectance_value (filter valid_reading (channel block))
    /\ (Forall (fun c => distance_value c = 0%Z) (channel block) ->
        pts = [] /\ refl = []).
Proof.
  intros es os block pts refl H.
  apply block_body_Return_inv in H. destruct H as (Hes & Hos & -> & ->).
  repeat split.
  - eapply Forall2_impl;
      [| apply block_points_channels; [exact Hes | now rewrite length_map]].
    intros p c [Hv (e & a & _ & _ & ->)]. split.
    + unfold valid_reading in Hv. intros E. rewrite E in Hv. discriminate.
    + now apply reading_point_not_origin.
  - now apply block_points_all_zero.
  - now apply block_points_all_zero.
Qed.

(** C6.  The point that [polar_to_cartesian] computes from a distance has
    that distance from the origin: x*x + y*y + z*z equals the square of the
    distance, hence lies within the relative tolerance 1e-6 of it.  The
    same holds for every point the loop body returns, with the distance in
    metres of the channel it stands for. *)
Theorem C6_radius_preserved :
  (forall azimuth elevation distance : R,
      let n := sq_norm (polar_to_cartesian azimuth elevation distance) in
      n = (distance * distance)%R
      /\ (Rabs (n - distance * distance) <= / 1000000 * (distance * distance))%R)
  /\ (forall (es os : list R) (block : Block) (pts : list point) (refl : list Z),
         block_body es os block = Ok (Return (pts, refl)) ->
         Forall2 (fun p c =>
                    let d := (IZR (distance_value c) / 1000)%R in
                    sq_norm p = (d * d)%R
                    /\ (Rabs (sq_norm p - d * d) <= / 1000000 * (d * d))%R)
                 pts (filter valid_reading (channel block))).
Proof.
  split.
  - intros azimuth elevation distance n.
    assert (Hn : n = (distance * distance)%R)
      by apply sq_norm_polar_to_cartesian.
    split; [exact Hn | now apply within_tolerance].
  - intros es os block pts refl H.
    apply block_body_Return_inv in H. destruct H as (Hes & Hos & -> & _).
    eapply Forall2_impl;
      [| apply block_points_channels; [exact Hes | now rewrite length_map]].
    intros p c [_ (e & a & _ & _ & ->)]. cbv zeta.
    split; [apply sq_norm_reading_point |].
    apply within_tolerance, sq_norm_reading_point.
Qed.

(** ** Running the state monad *)

Lemma bind_ok (A B : Type) (m : M A) (k : A -> M B) (s s' : state) (a : A) :
  m s = (Ok a, s') -> bind m k s = k a s'.
Proof. intros H. unfold bind. now rewrite H. Qed.

Lemma bind_raise (A B : Type) (m : M A) (k : A -> M B) (s s' : state) (e : exn) :
  m s = (Raise e, s') -> bind m k s = (Raise e, s').
Proof. intros H. unfold bind. now rewrite H. Qed.

Lemma for_in_block_body (es os : list R) (b : Block) (rest : list Block) :
  for_in (block_body es os) (b :: rest)
  = match block_body es os b with
    | Ok _ => Ok (Some (block_points es
                          (map (fun o => (o + deg2rad (azimuth_deg b))%R) os)
                          (channel b),
                        block_reflectances (channel b)))
    | Raise e => Raise e
    end.
Proof.
  cbn [for_in]. destruct (block_body_cases es os b) as [H | H]; now rewrite H.
Qed.

(** The loop of line 138 never reaches a second block. *)
Lemma for_in_first_block (es os : list R) (b : Block) (rest : list Block) :
  for_in (block_body es os) (b :: rest) = for_in (block_body es os) [b].
Proof. now rewrite !for_in_block_body. Qed.

Section ReaderProperties.

Variable from_bytes : list byte -> outcome HesaiPandar64Packets.
Variable float_of_text : text -> R.

Lemma raw_hesai_to_cartesian_run (packet_data : list byte)
      (dto : HesaiPandar64Packets) (st : state) (a : ndarray) (c1 c2 : list R) :
  from_bytes packet_data = Ok dto ->
  calibration_array st = Some a ->
  column 1 a = Ok c1 ->
  column 2 a = Ok c2 ->
  raw_hesai_to_cartesian from_bytes packet_data st
  = (for_in (block_body (map (fun e => (PI / 2 - deg2rad e)%R) c1) (map deg2rad c2))
            (selected_blocks dto), st).
Proof.
  intros Hd Ha H1 H2. unfold raw_hesai_to_cartesian, bind, lift, get_calibration_array.
  rewrite Hd, Ha, H1. cbv beta iota. now rewrite Ha, H2.
Qed.

Lemma raw_hesai_to_cartesian_rejected (packet_data : list byte) (st : state) (e : exn) :
  from_bytes packet_data = Raise e ->
  raw_hesai_to_cartesian from_bytes packet_data st = (Raise e, st).
Proof.
  intros Hd. unfold raw_hesai_to_cartesian, bind, lift. now rewrite Hd.
Qed.

(** [raw_hesai_to_cartesian] reads the state and leaves it as it is. *)
Lemma raw_hesai_to_cartesian_state (packet_data : list byte) (st : state) :
  snd (raw_hesai_to_cartesian from_bytes packet_data st) = st.
Proof.
  unfold raw_hesai_to_cartesian, bind, lift, get_calibration_array.
  destruct (from_bytes packet_data) as [dto | e]; [| reflexivity].
  destruct (calibration_array st) as [a |] eqn:Ha; [| reflexivity].
  destruct (column 1 a) as [c1 | e]; [| reflexivity].
  cbv beta iota. rewrite Ha.
  destruct (column 2 a); reflexivity.
Qed.

Lemma packet_loop_state (ps : list Packet) :
  forall (pa : list point) (ra : list Z) (st : state),
    snd (packet_loop from_bytes ps pa ra st) = st.
Proof.
  induction ps as [| p rest IH]; intros pa ra st; [reflexivity |].
  cbn [packet_loop]. unfold bind.
  pose proof (raw_hesai_to_cartesian_state (data p) st) as Hs.
  destruct (raw_hesai_to_cartesian from_bytes (data p) st) as [[[[tp tr] |] | e] s'];
    cbn [snd] in Hs; subst s'; try reflexivity.
  apply IH.
Qed.

(** A packet that the decoder rejects ends the loop over the packets with
    an exception, whatever follows it. *)
Lemma packet_loop_rejected (bad : Packet) (e : exn) (pre : list Packet) :
  from_bytes (data bad) = Raise e ->
  forall (pa : list point) (ra : list Z) (st : state),
  exists e' : exn,
  forall post : list Packet,
    packet_loop from_bytes (pre ++ bad :: post) pa ra st = (Raise e', st).
Proof.
  intros Hbad. induction pre as [| p pre' IH]; intros pa ra st.
  - exists e. intros post. cbn [app packet_loop].
    apply bind_raise. now apply raw_hesai_to_cartesian_rejected.
  - pose proof (raw_hesai_to_cartesian_state (data p) st) as Hs.
    destruct (raw_hesai_to_cartesian from_bytes (data p) st)
      as [[[[tp tr] |] | e1] s'] eqn:Hp; cbn [snd] in Hs; subst s'.
    + destruct (IH (pa ++ tp) (ra ++ tr) st) as [e' He'].
      exists e'. intros post. cbn [app packet_loop].
      erewrite bind_ok by exact Hp. apply He'.
    + exists TypeError. intros post. cbn [app packet_loop].
      now erewrite bind_ok by exact Hp.
    + exists e1. intros post. cbn [app packet_loop].
      now apply bind_raise.
Qed.

(** *** The calibration table *)

Lemma utf8_code_points_raises (bs : list N) (e : exn) :
  utf8_code_points bs = Raise e -> e = UnicodeDecodeError.
Proof.
  remember (List.length bs) as n eqn:Hn. revert bs Hn e.
  induction n as [n IH] using lt_wf_ind. intros bs Hn e H.
  assert (Hrec : forall r : list N,
             (List.length r < n)%nat ->
             forall (c : N) (e0 : exn),
               (cs <- utf8_code_points r ;; Ok (c :: cs)) = Raise e0 ->
               e0 = UnicodeDecodeError).
  { intros r Hr c e0 H0.
    destruct (utf8_code_points r) eqn:Er; [discriminate |].
    cbn [obind] in H0. injection H0 as <-. exact (IH _ Hr r eq_refl _ Er). }
  destruct bs as [| b0 r0]; [discriminate |]. cbn [List.length] in Hn.
  cbn [utf8_code_points] in H.
  repeat match type of H with
         | (if ?c then _ else _) = _ => destruct c
         | match ?l with [] => _ | _ :: _ => _ end = _ =>
             destruct l; cbn [List.length] in Hn
         | (_ <- utf8_code_points ?r ;; _) = _ => apply Hrec in H; [exact H | lia]
         | Raise _ = Raise _ => injection H as <-; reflexivity
         end.
Qed.

Lemma decode_utf8_raises (bs : list byte) (e : exn) :
  decode_utf8 bs = Raise e -> e = UnicodeDecodeError.
Proof. apply utf8_code_points_raises. Qed.

End ReaderProperties.

(** ** Loading the calibration table *)

Section CalibrationProperties.

Variable float_of_text : text -> R.

Lemma genfromtxt_cases (s : text) (st : state) :
  genfromtxt float_of_text s st
  = match data_rows s with
    | [] => (Ok (Arr1 []), snd (warn "genfromtxt: Empty input file" st))
    | _ :: _ =>
        if uniform_rows (data_rows s)
        then (Ok (squeeze (np_array (map (map float_of_text) (data_rows s)))), st)
        else (Raise ValueError, st)
    end.
Proof.
  unfold genfromtxt, uniform_rows.
  destruct (data_rows s) as [| first rows]; [reflexivity |].
  cbn [hd]. destruct (forallb _ (first :: rows)); reflexivity.
Qed.

Lemma genfromtxt_outcome (s : text) (st : state) :
  fst (genfromtxt float_of_text s st)
  = if uniform_rows (data_rows s)
    then Ok (squeeze (np_array (map (map float_of_text) (data_rows s))))
    else Raise ValueError.
Proof.
  rewrite genfromtxt_cases.
  destruct (data_rows s) as [| first rows] eqn:E; [reflexivity |].
  destruct (uniform_rows (first :: rows)); reflexivity.
Qed.

(** [np.genfromtxt] touches nothing but the warnings. *)
Lemma genfromtxt_state (s : text) (st : state) :
  calibration_array (snd (genfromtxt float_of_text s st)) = calibration_array st
  /\ written_files (snd (genfromtxt float_of_text s st)) = written_files st.
Proof.
  rewrite genfromtxt_cases.
  destruct (data_rows s) as [| first rows]; [split; reflexivity |].
  destruct (uniform_rows (first :: rows)); split; reflexivity.
Qed.

Lemma load_calibration_parsed (msg : Msg) (st : state) :
  fst (load_calibration float_of_text msg st)
  = (_ <- parsed_table float_of_text msg ;; Ok tt)
  /\ calibration_array (snd (load_calibration float_of_text msg st))
     = match parsed_table float_of_text msg with
       | Ok a => Some a
       | Raise _ => calibration_array st
       end
  /\ written_files (snd (load_calibration float_of_text msg st)) = written_files st.
Proof.
  unfold load_calibration, parsed_table, bind, lift.
  destruct (getitem_last (packets msg)) as [last_packet | e];
    cbn [obind]; [| repeat split].
  destruct (decode_utf8 (skipn 8 (data last_packet))) as [s | e];
    cbn [obind]; [| repeat split].
  pose proof (genfromtxt_outcome s st) as Ho.
  destruct (genfromtxt_state s st) as [Hc Hw].
  destruct (genfromtxt float_of_text s st) as [[a | e] s1]; cbn [fst snd] in *;
    destruct (uniform_rows (data_rows s)); try discriminate.
  - injection Ho as Ho. subst a. repeat split. exact Hw.
  - injection Ho as Ho. subst e. repeat split; assumption.
Qed.

Lemma getitem_last_raises (A : Type) (l : list A) (e : exn) :
  getitem_last l = Raise e -> e = IndexError.
Proof.
  induction l as [| x rest IH]; cbn [getitem_last]; [congruence |].
  destruct rest; [discriminate | exact IH].
Qed.

(** C8 (amended).  Loading the calibration table of a message fails in
    three cases and in no other: the message has no packet ([IndexError]);
    the bytes of its last packet after the first eight are not UTF-8
    ([UnicodeDecodeError]); after the header line, the lines with fields do
    not all have as many fields as the first of them ([ValueError]).  It
    never fails with [CalibrationFormatError]. *)
Theorem C8_calibration_failures :
  forall (msg : Msg) (st : state),
    fst (load_calibration float_of_text msg st)
    = match getitem_last (packets msg) with
      | Raise _ => Raise IndexError
      | Ok last_packet =>
          match decode_utf8 (skipn 8 (data last_packet)) with
          | Raise _ => Raise UnicodeDecodeError
          | Ok s => if uniform_rows (data_rows s) then Ok tt else Raise ValueError
          end
      end
    /\ fst (load_calibration float_of_text msg st) <> Raise CalibrationFormatError.
Proof.
  intros msg st.
  destruct (load_calibration_parsed msg st) as [Ho _]. rewrite Ho.
  unfold parsed_table.
  destruct (getitem_last (packets msg)) as [last_packet | e] eqn:El; cbn [obind].
  - destruct (decode_utf8 (skipn 8 (data last_packet))) as [s | e] eqn:Ed;
      cbn [obind].
    + destruct (uniform_rows (data_rows s)); split;
        cbn [obind]; try reflexivity; discriminate.
    + apply decode_utf8_raises in Ed. subst e.
      split; try reflexivity; discriminate.
  - apply getitem_last_raises in El. subst e.
    split; try reflexivity; discriminate.
Qed.

(** C9.  The calibration table is a function of the message alone: there is
    one outcome of the parse such that loading the table, from whatever
    state, succeeds or fails as that outcome does and stores exactly that
    table; loading the same message a second time stores the same table and
    has the same outcome. *)
Theorem C9_calibration_parse_deterministic :
  forall msg : Msg,
    (exists table : outcome ndarray,
        forall st : state,
          fst (load_calibration float_of_text msg st) = (_ <- table ;; Ok tt)
          /\ calibration_array (snd (load_calibration float_of_text msg st))
             = match table with
               | Ok a => Some a
               | Raise _ => calibration_array st
               end)
    /\ (forall st : state,
           let st' := snd (load_calibration float_of_text msg st) in
           fst (load_calibration float_of_text msg st')
           = fst (load_calibration float_of_text msg st)
           /\ calibration_array (snd (load_calibration float_of_text msg st'))
              = calibration_array st').
Proof.
  intros msg. split.
  - exists (parsed_table float_of_text msg). intros st.
    destruct (load_calibration_parsed msg st) as (Ho & Hc & _). now split.
  - intros st st'.
    destruct (load_calibration_parsed msg st) as (Ho & Hc & _).
    destruct (load_calibration_parsed msg st') as (Ho' & Hc' & _).
    split; [congruence |].
    rewrite Hc'. subst st'. rewrite Hc.
    destruct (parsed_table float_of_text msg); reflexivity.
Qed.

End CalibrationProperties.

(** ** Packets and messages *)

Lemma getitem_last_app (A : Type) (l : list A) (x : A) :
  getitem_last (l ++ [x]) = Ok x.
Proof.
  induction l as [| y rest IH]; [reflexivity |].
  cbn [app getitem_last]. rewrite IH. destruct (rest ++ [x]) eqn:E; [| reflexivity].
  destruct rest; discriminate.
Qed.

Lemma selected_blocks_short_dual (dto : HesaiPandar64Packets) :
  return_mode (tail dto) = 57%Z ->
  (List.length (blocks dto) < 2)%nat ->
  selected_blocks dto = [].
Proof.
  destruct dto as [bs t]. cbn [tail blocks]. intros Hm Hl.
  rewrite (selected_blocks_dual bs t Hm).
  destruct bs as [| b0 [| b1 rest]]; [reflexivity | reflexivity |].
  cbn [List.length] in Hl. lia.
Qed.

(** The point of the end-to-end scenario: 1000 mm at elevation 0 and
    azimuth 0, with no azimuth offset. *)
Lemma scenario_point (r : Z) :
  reading_point (PI / 2 - deg2rad 0) (deg2rad 0 + deg2rad 0)
                {| distance_value := 1000; reflectance_value := r |}
  = (1%R, 0%R, 0%R).
Proof.
  unfold reading_point, deg2rad. cbn [distance_value].
  replace (PI / 2 - 0 * (PI / 180))%R with (PI / 2)%R by lra.
  replace (0 * (PI / 180) + 0 * (PI / 180))%R with 0%R by lra.
  rewrite sin_PI2, cos_PI2, sin_0, cos_0.
  f_equal; [f_equal |]; lra.
Qed.

Section MessageProperties.

Variable from_bytes : list byte -> outcome HesaiPandar64Packets.
Variable float_of_text : text -> R.

Lemma load_calibration_last (msg : Msg) (cal : Packet) (st : state) :
  getitem_last (packets msg) = Ok cal ->
  load_calibration float_of_text msg st
  = load_calibration float_of_text {| packets := [cal] |} st.
Proof.
  intros H. unfold load_calibration, bind, lift. cbn [packets getitem_last].
  now rewrite H.
Qed.

(** The packet of the end-to-end scenario, decoded in any mode but the
    dual one, against the calibration table of the scenario. *)
Lemma single_mode_scenario (packet_data : list byte) (st : state) (i1 i2 : R)
      (r0 r1 mode : Z) :
  from_bytes packet_data
  = Ok {| blocks :=
            [ {| azimuth_deg := 0%R;
                 channel := [ {| distance_value := 1000; reflectance_value := r0 |};
                              {| distance_value := 0; reflectance_value := r1 |} ] |} ];
          tail := {| return_mode := mode |} |} ->
  calibration_array st = Some (Arr2 3 [[i1; 0%R; 0%R]; [i2; 10%R; 0%R]]) ->
  mode <> 57%Z ->
  raw_hesai_to_cartesian from_bytes packet_data st
  = (Ok (Some ([(1%R, 0%R, 0%R)], [r0])), st).
Proof.
  intros Hdec Hcal Hmode.
  erewrite raw_hesai_to_cartesian_run;
    [| exact Hdec | exact Hcal | reflexivity | reflexivity ].
  rewrite selected_blocks_single by exact Hmode.
  rewrite for_in_block_body, block_body_channels by reflexivity.
  cbn [map nth channel azimuth_deg block_points block_reflectances filter
       valid_reading distance_value reflectance_value Z.eqb negb].
  now rewrite scenario_point.
Qed.

(** C2.  End to end: the message holds one firing packet and the
    calibration packet; the calibration loads to the table of two channels
    (elevation 0, offset 0) and (elevation 10, offset 0); the firing packet
    is in single mode and decodes to one block at azimuth 0 with the
    distances 1000 mm and 0 mm.  Then the message is exported as a cloud of
    exactly one point, (1, 0, 0), with the reflectance of channel 0;
    channel 1 gives no point. *)
Theorem C2_end_to_end :
  forall (msg : Msg) (st st1 : state) (p cal : Packet) (i1 i2 : R)
         (r0 r1 mode : Z),
    packets msg = [p; cal] ->
    load_calibration float_of_text msg st = (Ok tt, st1) ->
    calibration_array st1 = Some (Arr2 3 [[i1; 0%R; 0%R]; [i2; 10%R; 0%R]]) ->
    from_bytes (data p)
    = Ok {| blocks :=
              [ {| azimuth_deg := 0%R;
                   channel := [ {| distance_value := 1000; reflectance_value := r0 |};
                                {| distance_value := 0; reflectance_value := r1 |} ] |} ];
            tail := {| return_mode := mode |} |} ->
    mode <> 57%Z ->
    exists st' : state,
      export_message from_bytes float_of_text msg st = (Ok tt, st')
      /\ written_files st'
         = {| cloud_points := [(1%R, 0%R, 0%R)];
              cloud_reflectance := [r0];
              cloud_name := (stamp_secs p, stamp_nsecs p) |} :: written_files st.
Proof.
  intros msg st st1 p cal i1 i2 r0 r1 mode Hps Hload Hcal Hdec Hmode.
  destruct (load_calibration_parsed float_of_text msg st) as (_ & _ & Hw).
  rewrite Hload in Hw. cbn [snd] in Hw.
  unfold export_message. erewrite bind_ok by exact Hload.
  rewrite Hps. cbn [removelast packet_loop].
  pose proof (@single_mode_scenario (data p) st1 i1 i2 r0 r1 mode Hdec Hcal Hmode)
    as Hraw.
  erewrite bind_ok by (erewrite bind_ok by exact Hraw; reflexivity).
  cbn [app getitem_first]. unfold bind, lift, write_point_cloud. cbn [fst snd].
  eexists. split; [reflexivity |]. cbn [written_files]. now rewrite Hw.
Qed.

(** C5 (amended).  A packet that the decoder rejects is not skipped: the
    exception leaves [export_pointclouds]' handling of the message.  The
    message ends in an exception, no point cloud is written for it, and
    the packets after the rejected one have no part in the outcome. *)
Theorem C5_rejected_packet_aborts_message :
  forall (msg : Msg) (pre post : list Packet) (bad cal : Packet)
         (st : state) (e : exn),
    packets msg = pre ++ bad :: post ++ [cal] ->
    from_bytes (data bad) = Raise e ->
    exists (e' : exn) (st' : state),
      export_message from_bytes float_of_text msg st = (Raise e', st')
      /\ written_files st' = written_files st
      /\ forall post' : list Packet,
          export_message from_bytes float_of_text
                         {| packets := pre ++ bad :: post' ++ [cal] |} st
          = (Raise e', st').
Proof.
  intros msg pre post bad cal st e Hps Hbad.
  assert (Hshape : forall post' : list Packet,
             pre ++ bad :: post' ++ [cal] = (pre ++ bad :: post') ++ [cal])
    by (intros post'; now rewrite <- app_assoc).
  assert (Hgen : exists (e' : exn) (st' : state),
             written_files st' = written_files st
             /\ forall m : Msg,
                 (exists post', packets m = (pre ++ bad :: post') ++ [cal]) ->
                 export_message from_bytes float_of_text m st = (Raise e', st')).
  { destruct (load_calibration float_of_text {| packets := [cal] |} st)
      as [[[] | e1] s1] eqn:Hload.
    - destruct (packet_loop_rejected from_bytes bad pre Hbad [] [] s1) as [e' He'].
      exists e', s1. split.
      + destruct (load_calibration_parsed float_of_text {| packets := [cal] |} st)
          as (_ & _ & Hw).
        now rewrite Hload in Hw.
      + intros m [post' Hm].
        rewrite <- (@load_calibration_last m cal st) in Hload
          by (rewrite Hm; apply getitem_last_app).
        unfold export_message. erewrite bind_ok by exact Hload.
        rewrite Hm, removelast_last. apply bind_raise, He'.
    - exists e1, s1. split.
      + destruct (load_calibration_parsed float_of_text {| packets := [cal] |} st)
          as (_ & _ & Hw).
        now rewrite Hload in Hw.
      + intros m [post' Hm].
        rewrite <- (@load_calibration_last m cal st) in Hload
          by (rewrite Hm; apply getitem_last_app).
        unfold export_message. now apply bind_raise. }
  destruct Hgen as (e' & st' & Hw & Hall).
  exists e', st'. repeat split.
  - apply Hall. exists post. now rewrite Hps, Hshape.
  - exact Hw.
  - intros post'. apply Hall. exists post'. cbn [packets]. apply Hshape.
Qed.

(** C7 (amended).  A packet whose return-mode marker is not the dual value
    57 is processed in single mode: all its blocks are selected, from
    index 0 with stride 1.  No warning is issued (the state, which holds
    the warnings, is left as it is), and the outcome is the same for every
    marker other than 57, so that the value of the marker aborts
    nothing. *)
Theorem C7_other_modes_are_single :
  forall (packet_data : list byte) (dto : HesaiPandar64Packets) (st : state),
    from_bytes packet_data = Ok dto ->
    return_mode (tail dto) <> 57%Z ->
    selected_blocks dto = blocks dto
    /\ snd (raw_hesai_to_cartesian from_bytes packet_data st) = st
    /\ forall mode' : Z,
        mode' <> 57%Z ->
        raw_hesai_to_cartesian from_bytes packet_data st
        = raw_hesai_to_cartesian
            (fun _ => Ok {| blocks := blocks dto; tail := {| return_mode := mode' |} |})
            packet_data st.
Proof.
  intros packet_data [bs t] st Hdec Hmode. cbn [tail blocks] in *.
  repeat split.
  - now apply selected_blocks_single.
  - apply raw_hesai_to_cartesian_state.
  - intros mode' Hmode'. unfold raw_hesai_to_cartesian, bind, lift.
    rewrite Hdec, (selected_blocks_single bs t Hmode).
    now rewrite (selected_blocks_single bs {| return_mode := mode' |} Hmode').
Qed.

(** C10.  When no block of a packet is selected, the loop of line 138 has
    no iteration and [raw_hesai_to_cartesian] returns [None], not a pair of
    empty arrays; the caller then fails with [TypeError] on unpacking the
    result, before its accumulation step. *)
Theorem C10_no_selected_block_returns_None :
  forall (packet_data : list byte) (dto : HesaiPandar64Packets) (st : state)
         (ncols : nat) (rows : list (list R)),
    from_bytes packet_data = Ok dto ->
    calibration_array st = Some (Arr2 ncols rows) ->
    (2 < ncols)%nat ->
    selected_blocks dto = [] ->
    raw_hesai_to_cartesian from_bytes packet_data st = (Ok None, st)
    /\ forall (p : Packet) (rest : list Packet) (pa : list point) (ra : list Z),
        data p = packet_data ->
        packet_loop from_bytes (p :: rest) pa ra st = (Raise TypeError, st).
Proof.
  intros packet_data dto st ncols rows Hdec Hcal Hn Hsel.
  assert (Hraw : raw_hesai_to_cartesian from_bytes packet_data st = (Ok None, st)).
  { assert (H1 : (1 <? ncols)%nat = true) by (apply Nat.ltb_lt; lia).
    assert (H2 : (2 <? ncols)%nat = true) by (apply Nat.ltb_lt; lia).
    erewrite raw_hesai_to_cartesian_run;
      [| exact Hdec | exact Hcal
       | cbn [column]; rewrite H1; reflexivity
       | cbn [column]; rewrite H2; reflexivity ].
    now rewrite Hsel. }
  split; [exact Hraw |].
  intros p rest pa ra Hp. cbn [packet_loop]. rewrite Hp.
  now erewrite bind_ok by exact Hraw.
Qed.

End MessageProperties.

(** ** The scenarios on concrete data *)

(** C1.  The dual-return packet with the four blocks at azimuths 10, 10, 20,
    20, all readings valid: [raw_hesai_to_cartesian] returns the two points
    of the block at index 1 (reflectances 11 and 12) and nothing of the
    block at index 3 (reflectances 31 and 32), because the loop body
    returns in its first iteration. *)
Theorem C1_dual_packet_first_block_only :
  selected_blocks dual_dto = [dual_block 10%R 10; dual_block 20%R 30]
  /\ exists pts : list point,
      raw_hesai_to_cartesian (example_decoder dual_dto) (data firing_packet)
                             calibrated_state
      = (Ok (Some (pts, [11; 12]%Z)), calibrated_state)
      /\ List.length pts = 2%nat.
Proof.
  split; [reflexivity |].
  eexists. split.
  - erewrite raw_hesai_to_cartesian_run;
      [| reflexivity | reflexivity | reflexivity | reflexivity ].
    change (selected_blocks dual_dto)
      with [dual_block 10%R 10; dual_block 20%R 30].
    rewrite for_in_block_body, block_body_channels by reflexivity.
    reflexivity.
  - reflexivity.
Qed.

Lemma C2_end_to_end_witness :
  exists st' : state,
    export_message (example_decoder (single_block_dto 55)) float_of_decimal
                   {| packets := [firing_packet; calibration_packet] |} initial_state
    = (Ok tt, st')
    /\ written_files st'
       = [ {| cloud_points := [(1%R, 0%R, 0%R)];
              cloud_reflectance := [200%Z];
              cloud_name := (5%Z, 6%Z) |} ].
Proof.
  apply (@C2_end_to_end (example_decoder (single_block_dto 55)) float_of_decimal
           {| packets := [firing_packet; calibration_packet] |}
           initial_state calibrated_state firing_packet calibration_packet
           1%R 2%R 200%Z 100%Z 55%Z).
  - reflexivity.
  - reflexivity.
  - reflexivity.
  - reflexivity.
  - discriminate.
Defined.

Lemma C3_zero_distance_dropped_witness :
  exists (pts : list point) (refl : list Z),
    block_body [0%R; 0%R] [0%R; 0%R] scenario_block = Ok (Return (pts, refl))
    /\ Forall2 (fun p c => distance_value c <> 0%Z /\ p <> origin)
               pts (filter valid_reading (channel scenario_block))
    /\ refl = [200%Z].
Proof.
  assert (H : block_body [0%R; 0%R] [0%R; 0%R] scenario_block
              = Ok (Return (block_points [0%R; 0%R]
                              (map (fun o => (o + deg2rad (azimuth_deg scenario_block))%R)
                                   [0%R; 0%R])
                              (channel scenario_block),
                            block_reflectances (channel scenario_block))))
    by (apply block_body_channels; reflexivity).
  destruct (C3_zero_distance_dropped _ _ _ H) as (Hp & Hr & _).
  eexists. eexists. split; [exact H |]. split; [exact Hp | exact Hr].
Defined.

Lemma C5_rejected_packet_aborts_message_witness :
  exists (e' : exn) (st' : state),
    export_message (example_decoder (single_block_dto 55)) float_of_decimal
                   {| packets := [truncated_packet; firing_packet; calibration_packet] |}
                   initial_state
    = (Raise e', st')
    /\ written_files st' = [].
Proof.
  destruct (@C5_rejected_packet_aborts_message
              (example_decoder (single_block_dto 55)) float_of_decimal
              {| packets := [truncated_packet; firing_packet; calibration_packet] |}
              [] [firing_packet] truncated_packet calibration_packet
              initial_state MalformedPacketError eq_refl eq_refl)
    as (e' & st' & He & Hw & _).
  exists e', st'. split; [exact He | exact Hw].
Defined.

(** C5, as stated, fails: a truncated packet before a complete one.  The
    message ends in the decoder's exception and no cloud is written,
    although the second packet is complete and holds a valid reading. *)
Lemma C5_truncated_packet_not_skipped :
  export_message (example_decoder (single_block_dto 55)) float_of_decimal
                 {| packets := [truncated_packet; firing_packet; calibration_packet] |}
                 initial_state
  = (Raise MalformedPacketError, calibrated_state)
  /\ written_files calibrated_state = [].
Proof. split; reflexivity. Qed.

Lemma C6_radius_preserved_witness :
  exists (pts : list point) (refl : list Z),
    block_body [0%R; 0%R] [0%R; 0%R] (dual_block 10%R 10) = Ok (Return (pts, refl))
    /\ Forall2 (fun p c =>
                  let d := (IZR (distance_value c) / 1000)%R in
                  sq_norm p = (d * d)%R
                  /\ (Rabs (sq_norm p - d * d) <= / 1000000 * (d * d))%R)
               pts (filter valid_reading (channel (dual_block 10%R 10))).
Proof.
  assert (H : block_body [0%R; 0%R] [0%R; 0%R] (dual_block 10%R 10)
              = Ok (Return (block_points [0%R; 0%R]
                              (map (fun o => (o + deg2rad (azimuth_deg (dual_block 10%R 10)))%R)
                                   [0%R; 0%R])
                              (channel (dual_block 10%R 10)),
                            block_reflectances (channel (dual_block 10%R 10)))))
    by (apply block_body_channels; reflexivity).
  eexists. eexists. split; [exact H |].
  exact (proj2 C6_radius_preserved _ _ _ _ _ H).
Defined.

Lemma C7_other_modes_are_single_witness :
  selected_blocks (single_block_dto 0) = blocks (single_block_dto 0)
  /\ snd (raw_hesai_to_cartesian (example_decoder (single_block_dto 0))
                                 (data firing_packet) calibrated_state)
     = calibrated_state.
Proof.
  assert (Hm : return_mode (tail (single_block_dto 0)) <> 57%Z) by discriminate.
  destruct (@C7_other_modes_are_single
              (example_decoder (single_block_dto 0)) (data firing_packet)
              (single_block_dto 0) calibrated_state eq_refl Hm)
    as (Hs & Hst & _).
  split; [exact Hs | exact Hst].
Defined.

(** C7, as stated, fails: a packet with the marker 0, which is no return
    mode of the sensor.  It is processed, and the list of issued warnings
    is as empty after the call as before. *)
Lemma C7_unknown_mode_no_warning :
  raw_hesai_to_cartesian (example_decoder (single_block_dto 0))
                         (data firing_packet) calibrated_state
  = (Ok (Some ([(1%R, 0%R, 0%R)], [200%Z])), calibrated_state)
  /\ issued_warnings calibrated_state = [].
Proof.
  split; [| reflexivity].
  apply (@single_mode_scenario (example_decoder (single_block_dto 0))
           (data firing_packet) calibrated_state 1%R 2%R 200%Z 100%Z 0%Z);
    [reflexivity | reflexivity | discriminate].
Qed.

(** C8, as stated, fails three ways: a payload that is not UTF-8 fails with
    [UnicodeDecodeError], not with [CalibrationFormatError]; a table whose
    rows have two fields each is loaded without an error; a table whose rows
    have three and four fields is rejected. *)
Lemma C8_loader_outcomes :
  fst (load_calibration float_of_decimal
                        {| packets := [undecodable_calibration_packet] |} initial_state)
  = Raise UnicodeDecodeError
  /\ fst (load_calibration float_of_decimal
                           {| packets := [two_field_calibration_packet] |} initial_state)
     = Ok tt
  /\ fst (load_calibration float_of_decimal
                           {| packets := [ragged_calibration_packet] |} initial_state)
     = Raise ValueError.
Proof. repeat split; reflexivity. Qed.

Lemma C10_no_selected_block_returns_None_witness :
  raw_hesai_to_cartesian (example_decoder short_dual_dto) (data firing_packet)
                         calibrated_state
  = (Ok None, calibrated_state)
  /\ packet_loop (example_decoder short_dual_dto) [firing_packet] [] []
                 calibrated_state
     = (Raise TypeError, calibrated_state).
Proof.
  assert (Hn : (2 < 3)%nat) by lia.
  destruct (@C10_no_selected_block_returns_None
              (example_decoder short_dual_dto) (data firing_packet) short_dual_dto
              calibrated_state 3%nat [[1%R; 0%R; 0%R]; [2%R; 10%R; 0%R]]
              eq_refl eq_refl Hn eq_refl)
    as [Hraw Hloop].
  split; [exact Hraw |].
  exact (Hloop firing_packet [] [] [] eq_refl).
Defined.

(** * Further properties of the lidar path *)

(** ** [polar_to_cartesian] and the loop body *)


Lemma block_points_polar (azimuth_rad : R) (cs : list Channel) :
  forall c1 c2 : list R,
    Forall2 (fun p r =>
               p = polar_to_cartesian (deg2rad (snd (snd r)) + azimuth_rad)
                                      (deg2rad (fst (snd r)))
                                      (IZR (distance_value (fst r)) / 1000))
            (block_points (map (fun e => (PI / 2 - deg2rad e)%R) c1)
                          (map (fun o => (o + azimuth_rad)%R) (map deg2rad c2))
                          cs)
            (filter (fun r => valid_reading (fst r)) (combine cs (combine c1 c2))).
Proof.
  induction cs as [| c cs' IH]; intros c1 c2.
  - destruct c1; destruct c2; constructor.
  - destruct c1 as [| e c1']; [constructor |].
    destruct c2 as [| o c2']; [constructor |].
    cbn [map block_points combine filter fst].
    destruct (valid_reading c); [| apply IH].
    constructor; [reflexivity | apply IH].
Qed.

(** X2.  The loop body computes, for the valid channels of a block, what
    [polar_to_cartesian] computes: with the columns 1 and 2 of the
    calibration table in degrees, the point of a channel is
    [polar_to_cartesian] of the azimuth offset plus the block's azimuth, of
    the channel's elevation, and of its distance in metres. *)
Theorem block_body_is_polar_to_cartesian :
  forall (column_1 column_2 : list R) (block : Block)
         (pts : list point) (refl : list Z),
    block_body (map (fun e => (PI / 2 - deg2rad e)%R) column_1)
               (map deg2rad column_2) block
    = Ok (Return (pts, refl)) ->
    Forall2 (fun p r =>
               p = polar_to_cartesian
                     (deg2rad (snd (snd r)) + deg2rad (azimuth_deg block))
                     (deg2rad (fst (snd r)))
                     (IZR (distance_value (fst r)) / 1000))
            pts
            (filter (fun r => valid_reading (fst r))
                    (combine (channel block) (combine column_1 column_2))).
Proof.
  intros column_1 column_2 block pts refl H.
  apply block_body_Return_inv in H. destruct H as (_ & _ & -> & _).
  apply block_points_polar.
Qed.

Lemma block_body_is_polar_to_cartesian_witness :
  exists (pts : list point) (refl : list Z),
    block_body (map (fun e => (PI / 2 - deg2rad e)%R) [0%R; 10%R])
               (map deg2rad [0%R; 0%R]) scenario_block
    = Ok (Return (pts, refl))
    /\ Forall2 (fun p r =>
                  p = polar_to_cartesian
                        (deg2rad (snd (snd r)) + deg2rad (azimuth_deg scenario_block))
                        (deg2rad (fst (snd r)))
                        (IZR (distance_value (fst r)) / 1000))
               pts
               (filter (fun r => valid_reading (fst r))
                       (combine (channel scenario_block)
                                (combine [0%R; 10%R] [0%R; 0%R]))).
Proof.
  assert (H : block_body (map (fun e => (PI / 2 - deg2rad e)%R) [0%R; 10%R])
                         (map deg2rad [0%R; 0%R]) scenario_block
              = Ok (Return
                      (block_points (map (fun e => (PI / 2 - deg2rad e)%R) [0%R; 10%R])
                         (map (fun o => (o + deg2rad (azimuth_deg scenario_block))%R)
                              (map deg2rad [0%R; 0%R]))
                         (channel scenario_block),
                       block_reflectances (channel scenario_block))))
    by (apply block_body_channels; reflexivity).
  eexists. eexists. split; [exact H |].
  exact (block_body_is_polar_to_cartesian _ _ _ H).
Defined.

(** ** Packets against the calibration table *)

Lemma squeeze_not_usable (rows : list (list R)) :
  (List.length rows <= 1)%nat \/ (List.length (hd [] rows) <= 2)%nat ->
  forall (ncols : nat) (rs : list (list R)),
    squeeze (np_array rows) = Arr2 ncols rs -> (ncols <= 2)%nat.
Proof.
  intros H ncols rs E.
  destruct rows as [| r1 [| r2 rest]].
  - discriminate.
  - cbn [np_array squeeze] in E. destruct r1 as [| x [| y r1']]; discriminate.
  - destruct H as [H | H]; [cbn [List.length] in H; lia |].
    cbn [hd] in H. cbn [np_array squeeze] in E.
    destruct (List.length r1 =? 1)%nat; [discriminate |].
    injection E as <- _. exact H.
Qed.

Lemma block_points_length (cs : list Channel) :
  forall es azs : list R,
    List.length es = List.length cs ->
    List.length azs = List.length cs ->
    List.length (block_points es azs cs) = List.length (block_reflectances cs).
Proof.
  intros es azs Hes Hazs. unfold block_reflectances. rewrite length_map.
  eapply Forall2_length, block_points_channels; eassumption.
Qed.

Lemma block_points_not_origin (cs : list Channel) :
  forall es azs : list R,
    List.length es = List.length cs ->
    List.length azs = List.length cs ->
    Forall (fun p => p <> origin) (block_points es azs cs).
Proof.
  intros es azs Hes Hazs.
  pose proof (block_points_channels cs es azs Hes Hazs) as H.
  induction H as [| p c ps cs0 [Hv (e & a & _ & _ & ->)] _ IH]; constructor.
  - now apply reading_point_not_origin.
  - exact IH.
Qed.

Section LidarProperties.

Variable from_bytes : list byte -> outcome HesaiPandar64Packets.
Variable float_of_text : text -> R.


(** X4.  A packet that decodes cannot be converted unless the stored
    calibration is a two-dimensional array of at least three columns:
    without a stored calibration the call raises [AttributeError], with any
    other array [IndexError]; the state is left as it is. *)
Theorem raw_hesai_to_cartesian_unusable_calibration :
  forall (packet_data : list byte) (dto : HesaiPandar64Packets) (st : state),
    from_bytes packet_data = Ok dto ->
    (forall (ncols : nat) (rows : list (list R)),
        calibration_array st = Some (Arr2 ncols rows) -> (ncols <= 2)%nat) ->
    raw_hesai_to_cartesian from_bytes packet_data st
    = (Raise match calibration_array st with
             | None => AttributeError
             | Some _ => IndexError
             end, st).
Proof.
  intros packet_data dto st Hdec Hcal.
  unfold raw_hesai_to_cartesian, bind, lift, get_calibration_array. rewrite Hdec.
  destruct (calibration_array st) as [[x | xs | ncols rows] |] eqn:Ha;
    try reflexivity.
  specialize (Hcal ncols rows eq_refl). cbn [column].
  destruct (Nat.ltb_spec 1 ncols) as [H1 | H1]; [| reflexivity].
  rewrite Ha. cbn [column].
  destruct (Nat.ltb_spec 2 ncols) as [H2 | H2]; [lia | reflexivity].
Qed.

(** The points and reflectances that a packet returns are as many, and no
    point is the origin. *)
Lemma raw_hesai_to_cartesian_result (packet_data : list byte) (st st' : state)
      (pts : list point) (refl : list Z) :
  raw_hesai_to_cartesian from_bytes packet_data st = (Ok (Some (pts, refl)), st') ->
  List.length pts = List.length refl /\ Forall (fun p => p <> origin) pts.
Proof.
  unfold raw_hesai_to_cartesian, bind, lift, get_calibration_array.
  destruct (from_bytes packet_data) as [dto | e]; [| discriminate].
  destruct (calibration_array st) as [a |] eqn:Ha; [| discriminate].
  destruct (column 1 a) as [c1 | e]; [| discriminate].
  cbv beta iota. rewrite Ha.
  destruct (column 2 a) as [c2 | e]; [| discriminate].
  destruct (selected_blocks dto) as [| b rest]; [discriminate |].
  rewrite for_in_block_body.
  destruct (block_body _ _ b) as [c | e] eqn:Hb; [| discriminate].
  intros H. injection H as <- <- _.
  destruct (block_body_cases (map (fun e => (PI / 2 - deg2rad e)%R) c1)
                             (map deg2rad c2) b) as [Hc | Hc];
    [| rewrite Hc in Hb; discriminate].
  apply block_body_Return_inv in Hc. destruct Hc as (Hes & Hos & _ & _).
  split.
  - apply block_points_length; [exact Hes | now rewrite length_map].
  - apply block_points_not_origin; [exact Hes | now rewrite length_map].
Qed.

(** X5.  When the loop over the packets of a message ends without an
    exception, the state is as before, and the two arrays are the arrays it
    started from followed by the results of the packets, in packet order;
    every packet returned a pair. *)
Theorem packet_loop_concatenates :
  forall (ps : list Packet) (pa : list point) (ra : list Z) (st st' : state)
         (pts : list point) (refl : list Z),
    packet_loop from_bytes ps pa ra st = (Ok (pts, refl), st') ->
    st' = st
    /\ exists results : list (list point * list Z),
        Forall2 (fun p r =>
                   raw_hesai_to_cartesian from_bytes (data p) st = (Ok (Some r), st))
                ps results
        /\ pts = pa ++ List.concat (map fst results)
        /\ refl = ra ++ List.concat (map snd results).
Proof.
  induction ps as [| p rest IH]; intros pa ra st st' pts refl H.
  - cbn [packet_loop] in H. injection H as <- <- <-.
    split; [reflexivity |]. exists []. cbn [map List.concat].
    rewrite !app_nil_r. repeat split. constructor.
  - cbn [packet_loop] in H. unfold bind in H.
    pose proof (raw_hesai_to_cartesian_state from_bytes (data p) st) as Hs.
    destruct (raw_hesai_to_cartesian from_bytes (data p) st)
      as [[[[tp tr] |] | e] s1] eqn:Hp; cbn [snd] in Hs; subst s1;
      try discriminate.
    destruct (IH _ _ _ _ _ _ H) as (-> & results & Hall & -> & ->).
    split; [reflexivity |]. exists ((tp, tr) :: results).
    cbn [map List.concat fst snd]. rewrite <- !app_assoc.
    repeat split. constructor; [exact Hp | exact Hall].
Qed.

Lemma packet_loop_invariant (ps : list Packet) :
  forall (pa : list point) (ra : list Z) (st st' : state)
         (pts : list point) (refl : list Z),
    packet_loop from_bytes ps pa ra st = (Ok (pts, refl), st') ->
    List.length pa = List.length ra ->
    Forall (fun p => p <> origin) pa ->
    List.length pts = List.length refl /\ Forall (fun p => p <> origin) pts.
Proof.
  induction ps as [| p rest IH]; intros pa ra st st' pts refl H Hl Ho.
  - cbn [packet_loop] in H. injection H as <- <- _. now split.
  - cbn [packet_loop] in H. unfold bind in H.
    destruct (raw_hesai_to_cartesian from_bytes (data p) st)
      as [[[[tp tr] |] | e] s1] eqn:Hp; try discriminate.
    destruct (raw_hesai_to_cartesian_result _ _ Hp) as [Hl1 Ho1].
    apply (IH _ _ _ _ _ _ H).
    + rewrite !length_app. congruence.
    + apply Forall_app. now split.
Qed.

End LidarProperties.

(** ** Messages *)

Section ExportProperties.

Variable from_bytes : list byte -> outcome HesaiPandar64Packets.
Variable float_of_text : text -> R.

Lemma load_calibration_outcome (msg : Msg) (st : state) (o : outcome unit) (s1 : state) :
  load_calibration float_of_text msg st = (o, s1) ->
  written_files s1 = written_files st
  /\ match o with
     | Ok _ => exists a, parsed_table float_of_text msg = Ok a
                         /\ calibration_array s1 = Some a
     | Raise e => parsed_table float_of_text msg = Raise e
     end.
Proof.
  intros H.
  destruct (load_calibration_parsed float_of_text msg st) as (Ho & Hc & Hw).
  rewrite H in Ho, Hc, Hw. cbn [fst snd] in Ho, Hc, Hw.
  split; [exact Hw |].
  destruct (parsed_table float_of_text msg) as [a | e]; cbn [obind] in Ho; subst o.
  - exists a. now split.
  - reflexivity.
Qed.

(** X6.  A message that holds nothing but its calibration packet is
    exported as an empty cloud, named by the time stamp of that packet,
    whenever the calibration loads: no packet is converted, so the table is
    not even looked at. *)
Theorem export_message_calibration_only :
  forall (msg : Msg) (cal : Packet) (st st1 : state),
    packets msg = [cal] ->
    load_calibration float_of_text msg st = (Ok tt, st1) ->
    exists st' : state,
      export_message from_bytes float_of_text msg st = (Ok tt, st')
      /\ written_files st'
         = {| cloud_points := []; cloud_reflectance := [];
              cloud_name := (stamp_secs cal, stamp_nsecs cal) |} :: written_files st
      /\ calibration_array st' = calibration_array st1.
Proof.
  intros msg cal st st1 Hps Hload.
  destruct (load_calibration_outcome msg st Hload) as [Hw _].
  unfold export_message. erewrite bind_ok by exact Hload.
  rewrite Hps. cbn [removelast packet_loop].
  unfold bind, ret, lift, write_point_cloud. cbn [fst snd getitem_first].
  eexists. repeat split. cbn [written_files]. now rewrite Hw.
Qed.

(** X7.  A message without any packet cannot be exported: [msg.packets[-1]]
    raises [IndexError] before anything is read, stored or written. *)
Theorem export_message_no_packet :
  forall (msg : Msg) (st : state),
    packets msg = [] ->
    export_message from_bytes float_of_text msg st = (Raise IndexError, st).
Proof.
  intros msg st Hps.
  unfold export_message, load_calibration, bind, lift. now rewrite Hps.
Qed.

(** X8.  Every cloud that [export_pointclouds] writes for a message is well
    formed: it is named by the time stamp of the first packet of the
    message, it has as many reflectances as points, and none of its points
    is the origin. *)
Theorem exported_cloud_well_formed :
  forall (msg : Msg) (st st' : state),
    export_message from_bytes float_of_text msg st = (Ok tt, st') ->
    exists (c : Cloud) (first_packet : Packet),
      written_files st' = c :: written_files st
      /\ getitem_first (packets msg) = Ok first_packet
      /\ cloud_name c = (stamp_secs first_packet, stamp_nsecs first_packet)
      /\ List.length (cloud_points c) = List.length (cloud_reflectance c)
      /\ Forall (fun p => p <> origin) (cloud_points c).
Proof.
  intros msg st st' H. unfold export_message, bind in H.
  destruct (load_calibration float_of_text msg st) as [[[] | e] s1] eqn:Hload;
    [| discriminate].
  destruct (load_calibration_outcome msg st Hload) as [Hw _].
  pose proof (packet_loop_state from_bytes (removelast (packets msg)) [] [] s1) as Hs.
  destruct (packet_loop from_bytes (removelast (packets msg)) [] [] s1)
    as [[[pts refl] | e] s2] eqn:Hloop; [| discriminate].
  cbn [snd] in Hs. subst s2.
  destruct (@packet_loop_invariant from_bytes _ _ _ _ _ _ _ Hloop eq_refl (Forall_nil _))
    as [Hl Ho].
  unfold lift in H. destruct (getitem_first (packets msg)) as [p | e]; [| discriminate].
  unfold write_point_cloud in H. injection H as <-.
  eexists. exists p. cbn [written_files cloud_name cloud_points cloud_reflectance fst snd].
  rewrite Hw. repeat split; assumption.
Qed.

End ExportProperties.

Lemma export_message_calibration_only_witness :
  exists st' : state,
    export_message (example_decoder dual_dto) float_of_decimal
                   {| packets := [calibration_packet] |} initial_state
    = (Ok tt, st')
    /\ written_files st'
       = [ {| cloud_points := []; cloud_reflectance := [];
              cloud_name := (7%Z, 9%Z) |} ]
    /\ calibration_array st' = Some calibration_table.
Proof.
  exact (@export_message_calibration_only
           (example_decoder dual_dto) float_of_decimal
           {| packets := [calibration_packet] |} calibration_packet
           initial_state calibrated_state eq_refl eq_refl).
Defined.

Lemma export_message_no_packet_witness :
  export_message (example_decoder dual_dto) float_of_decimal {| packets := [] |}
                 calibrated_state
  = (Raise IndexError, calibrated_state).
Proof.
  exact (@export_message_no_packet (example_decoder dual_dto) float_of_decimal
           {| packets := [] |} calibrated_state eq_refl).
Defined.

Lemma exported_cloud_well_formed_witness :
  exists (c : Cloud) (first_packet : Packet),
    written_files
      {| calibration_array := Some calibration_table; issued_warnings := [];
         written_files := [ {| cloud_points := [(1%R, 0%R, 0%R)];
                               cloud_reflectance := [200%Z];
                               cloud_name := (5%Z, 6%Z) |} ] |}
    = c :: written_files initial_state
    /\ getitem_first [firing_packet; calibration_packet] = Ok first_packet
    /\ cloud_name c = (stamp_secs first_packet, stamp_nsecs first_packet)
    /\ List.length (cloud_points c) = List.length (cloud_reflectance c)
    /\ Forall (fun p => p <> origin) (cloud_points c).
Proof.
  assert (H : export_message (example_decoder (single_block_dto 55)) float_of_decimal
                {| packets := [firing_packet; calibration_packet] |} initial_state
              = (Ok tt,
                 {| calibration_array := Some calibration_table; issued_warnings := [];
                    written_files := [ {| cloud_points := [(1%R, 0%R, 0%R)];
                                          cloud_reflectance := [200%Z];
                                          cloud_name := (5%Z, 6%Z) |} ] |})).
  { assert (Hloop : packet_loop (example_decoder (single_block_dto 55))
                                [firing_packet] [] [] calibrated_state
                    = (Ok ([(1%R, 0%R, 0%R)], [200%Z]), calibrated_state)).
    { cbn [packet_loop].
      erewrite bind_ok
        by (apply (@single_mode_scenario (example_decoder (single_block_dto 55))
                     (data firing_packet) calibrated_state 1%R 2%R 200%Z 100%Z 55%Z);
            [reflexivity | reflexivity | discriminate]).
      reflexivity. }
    assert (Hload : load_calibration float_of_decimal
                      {| packets := [firing_packet; calibration_packet] |} initial_state
                    = (Ok tt, calibrated_state)) by reflexivity.
    unfold export_message. erewrite bind_ok by exact Hload.
    cbn [packets removelast].
    erewrite bind_ok by exact Hloop. reflexivity. }
  exact (@exported_cloud_well_formed (example_decoder (single_block_dto 55))
           float_of_decimal _ _ _ H).
Defined.


Lemma raw_hesai_to_cartesian_unusable_calibration_witness :
  raw_hesai_to_cartesian (example_decoder dual_dto) (data firing_packet) initial_state
  = (Raise AttributeError, initial_state).
Proof.
  assert (H : forall (ncols : nat) (rows : list (list R)),
             calibration_array initial_state = Some (Arr2 ncols rows) ->
             (ncols <= 2)%nat) by discriminate.
  exact (@raw_hesai_to_cartesian_unusable_calibration
           (example_decoder dual_dto) (data firing_packet) dual_dto initial_state
           eq_refl H).
Defined.

Lemma packet_loop_concatenates_witness :
  exists results : list (list point * list Z),
    Forall2 (fun p r =>
               raw_hesai_to_cartesian (example_decoder (single_block_dto 55))
                                      (data p) calibrated_state
               = (Ok (Some r), calibrated_state))
            [firing_packet; firing_packet] results
    /\ [(1%R, 0%R, 0%R); (1%R, 0%R, 0%R)] = [] ++ List.concat (map fst results)
    /\ [200%Z; 200%Z] = [] ++ List.concat (map snd results).
Proof.
  assert (Hraw : raw_hesai_to_cartesian (example_decoder (single_block_dto 55))
                                        (data firing_packet) calibrated_state
                 = (Ok (Some ([(1%R, 0%R, 0%R)], [200%Z])), calibrated_state)).
  { apply (@single_mode_scenario (example_decoder (single_block_dto 55))
             (data firing_packet) calibrated_state 1%R 2%R 200%Z 100%Z 55%Z);
      [reflexivity | reflexivity | discriminate]. }
  assert (H : packet_loop (example_decoder (single_block_dto 55))
                          [firing_packet; firing_packet] [] [] calibrated_state
              = (Ok ([(1%R, 0%R, 0%R); (1%R, 0%R, 0%R)], [200%Z; 200%Z]),
                 calibrated_state)).
  { cbn [packet_loop]. erewrite bind_ok by exact Hraw. cbn [app].
    erewrite bind_ok by exact Hraw. reflexivity. }
  exact (proj2 (@packet_loop_concatenates
                  (example_decoder (single_block_dto 55)) _ _ _ _ _ _ _ H)).
Defined.

(** ** Messages and their calibration *)

Section CalibrationUse.

Variable from_bytes : list byte -> outcome HesaiPandar64Packets.
Variable float_of_text : text -> R.

Lemma export_message_files (msg : Msg) (st : state) :
  match fst (export_message from_bytes float_of_text msg st) with
  | Ok _ =>
      exists c : Cloud,
        written_files (snd (export_message from_bytes float_of_text msg st))
        = c :: written_files st
  | Raise _ =>
      written_files (snd (export_message from_bytes float_of_text msg st))
      = written_files st
  end.
Proof.
  unfold export_message, bind.
  destruct (load_calibration float_of_text msg st) as [[[] | e] s1] eqn:Hload;
    destruct (@load_calibration_outcome float_of_text msg st _ _ Hload) as [Hw _];
    [| exact Hw].
  pose proof (packet_loop_state from_bytes (removelast (packets msg)) [] [] s1) as Hs.
  destruct (packet_loop from_bytes (removelast (packets msg)) [] [] s1)
    as [[arrays | e] s2]; cbn [snd] in Hs; subst s2; [| exact Hw].
  unfold lift. destruct (getitem_first (packets msg)) as [p | e]; [| exact Hw].
  unfold write_point_cloud. cbn [fst snd written_files].
  eexists. now rewrite Hw.
Qed.

(** X9.  A calibration table that loads is not yet one that can be used.
    When its rows all have the same number of fields but there is at most
    one row, or the rows have at most two fields, the table is stored, and
    the first firing packet that decodes then fails with [IndexError]: the
    message ends in that exception and no cloud is written. *)
Theorem export_message_unusable_table :
  forall (msg : Msg) (p cal : Packet) (rest : list Packet) (s : text)
         (dto : HesaiPandar64Packets) (st : state),
    packets msg = p :: rest ++ [cal] ->
    decode_utf8 (skipn 8 (data cal)) = Ok s ->
    uniform_rows (data_rows s) = true ->
    (List.length (data_rows s) <= 1)%nat
    \/ (List.length (hd [] (data_rows s)) <= 2)%nat ->
    from_bytes (data p) = Ok dto ->
    exists st' : state,
      export_message from_bytes float_of_text msg st = (Raise IndexError, st')
      /\ written_files st' = written_files st
      /\ fst (load_calibration float_of_text msg st) = Ok tt.
Proof.
  intros msg p cal rest s dto st Hps Hdec Hu Hsmall Hp.
  assert (Hlast : getitem_last (packets msg) = Ok cal)
    by (rewrite Hps, app_comm_cons; apply getitem_last_app).
  assert (Htable : parsed_table float_of_text msg
                   = Ok (squeeze (np_array (map (map float_of_text) (data_rows s))))).
  { unfold parsed_table. rewrite Hlast. cbn [obind]. rewrite Hdec. cbn [obind].
    now rewrite Hu. }
  destruct (load_calibration float_of_text msg st) as [o s1] eqn:Hload.
  destruct (@load_calibration_outcome float_of_text msg st _ _ Hload) as [Hw Ho].
  destruct o as [[] | e]; [| congruence].
  destruct Ho as (a & Ha & Hcal). rewrite Htable in Ha. injection Ha as <-.
  assert (Hraw : raw_hesai_to_cartesian from_bytes (data p) s1 = (Raise IndexError, s1)).
  { erewrite raw_hesai_to_cartesian_unusable_calibration; [now rewrite Hcal | exact Hp |].
    intros ncols rows E. rewrite Hcal in E. injection E as E.
    apply (squeeze_not_usable (map (map float_of_text) (data_rows s))) in E;
      [exact E |].
    rewrite length_map.
    destruct Hsmall as [H | H]; [now left | right].
    destruct (data_rows s) as [| r rs]; cbn [map hd List.length] in *; [lia |].
    now rewrite length_map. }
  exists s1. repeat split; [| exact Hw].
  unfold export_message. erewrite bind_ok by exact Hload.
  rewrite Hps, app_comm_cons, removelast_last. cbn [packet_loop].
  apply bind_raise. now apply bind_raise.
Qed.

(** X10.  [export_pointclouds] writes one cloud per message until a message
    fails: when it ends without an exception it has written as many clouds
    as there were messages; when it ends in an exception the clouds of the
    messages before the failing one stay written, and they are fewer than
    the messages. *)
Theorem export_pointclouds_files :
  forall (msgs : list Msg) (st : state),
  exists clouds : list Cloud,
    written_files (snd (export_pointclouds from_bytes float_of_text msgs st))
    = clouds ++ written_files st
    /\ match fst (export_pointclouds from_bytes float_of_text msgs st) with
       | Ok _ => List.length clouds = List.length msgs
       | Raise _ => (List.length clouds < List.length msgs)%nat
       end.
Proof.
  induction msgs as [| msg rest IH]; intros st.
  - exists []. split; reflexivity.
  - cbn [export_pointclouds]. unfold bind.
    pose proof (export_message_files msg st) as Hm.
    destruct (export_message from_bytes float_of_text msg st) as [[[] | e] s1];
      cbn [fst snd] in Hm.
    + destruct Hm as [c Hc]. destruct (IH s1) as (clouds & Hw & Hl).
      exists (clouds ++ [c]). split.
      * rewrite Hw, Hc, <- app_assoc. reflexivity.
      * rewrite length_app. cbn [List.length].
        destruct (fst (export_pointclouds from_bytes float_of_text rest s1)); lia.
    + exists []. split; [exact Hm |]. cbn [fst List.length]. lia.
Qed.

Lemma load_calibration_forgets (msg : Msg) (st : state) (a : ndarray) :
  load_calibration float_of_text msg (snd (set_calibration_array a st))
  = match load_calibration float_of_text msg st with
    | (Ok u, s1) => (Ok u, s1)
    | (Raise e, s1) => (Raise e, snd (set_calibration_array a s1))
    end.
Proof.
  unfold load_calibration, bind, lift.
  destruct (getitem_last (packets msg)) as [last_packet | e]; [| reflexivity].
  destruct (decode_utf8 (skipn 8 (data last_packet))) as [s | e]; [| reflexivity].
  rewrite !genfromtxt_cases.
  destruct (data_rows s) as [| first rows]; [reflexivity |].
  destruct (uniform_rows (first :: rows)); reflexivity.
Qed.

(** X11.  A message is exported with its own calibration table: whatever
    table an earlier message left in [self.calibration_array], the outcome
    of the export and the files written are the same. *)
Theorem export_message_own_calibration :
  forall (msg : Msg) (st : state) (a : ndarray),
    let st_a := snd (set_calibration_array a st) in
    fst (export_message from_bytes float_of_text msg st_a)
    = fst (export_message from_bytes float_of_text msg st)
    /\ written_files (snd (export_message from_bytes float_of_text msg st_a))
       = written_files (snd (export_message from_bytes float_of_text msg st)).
Proof.
  intros msg st a st_a. unfold export_message, bind. subst st_a.
  rewrite load_calibration_forgets.
  destruct (load_calibration float_of_text msg st) as [[[] | e] s1];
    split; reflexivity.
Qed.

(** X12.  A payload with at least two data rows of [k] fields each, [k] at
    least 2, loads to a two-dimensional table of [k] columns with one row
    per data row, in the order of the payload: the number of channels the
    packets are checked against is the number of data rows. *)
Theorem load_calibration_table_shape :
  forall (msg : Msg) (cal : Packet) (s : text) (k : nat) (st : state),
    getitem_last (packets msg) = Ok cal ->
    decode_utf8 (skipn 8 (data cal)) = Ok s ->
    (2 <= List.length (data_rows s))%nat ->
    (2 <= k)%nat ->
    Forall (fun v => List.length v = k) (data_rows s) ->
    fst (load_calibration float_of_text msg st) = Ok tt
    /\ calibration_array (snd (load_calibration float_of_text msg st))
       = Some (Arr2 k (map (map float_of_text) (data_rows s)))
    /\ forall j : nat,
        (j < k)%nat ->
        column j (Arr2 k (map (map float_of_text) (data_rows s)))
        = Ok (map (fun v => float_of_text (nth j v [])) (data_rows s)).
Proof.
  intros msg cal s k st Hlast Hdec Hrows Hk Hall.
  assert (Hu : uniform_rows (data_rows s) = true).
  { unfold uniform_rows. apply forallb_forall. intros v Hv. apply Nat.eqb_eq.
    rewrite Forall_forall in Hall. rewrite (Hall v Hv).
    destruct (data_rows s) as [| r rs]; [contradiction |].
    cbn [hd]. symmetry. apply Hall. now left. }
  assert (Htable : parsed_table float_of_text msg
                   = Ok (Arr2 k (map (map float_of_text) (data_rows s)))).
  { unfold parsed_table. rewrite Hlast. cbn [obind]. rewrite Hdec. cbn [obind].
    rewrite Hu. f_equal.
    destruct (data_rows s) as [| r1 [| r2 rs]]; cbn [List.length] in Hrows; try lia.
    assert (Hr1 : List.length r1 = k) by (inversion Hall; assumption).
    cbn [map np_array squeeze]. rewrite length_map, Hr1.
    destruct (Nat.eqb_spec k 1); [lia | reflexivity]. }
  destruct (load_calibration_parsed float_of_text msg st) as (Ho & Hc & _).
  rewrite Htable in Ho, Hc. repeat split; [exact Ho | exact Hc |].
  intros j Hj. cbn [column].
  destruct (Nat.ltb_spec j k); [| lia].
  f_equal. rewrite map_map. apply map_ext_in. intros v Hv.
  rewrite Forall_forall in Hall. specialize (Hall v Hv).
  rewrite <- (map_nth float_of_text).
  apply nth_indep. rewrite length_map. lia.
Qed.

End CalibrationUse.

Lemma export_message_unusable_table_witness :
  exists st' : state,
    export_message (example_decoder dual_dto) float_of_decimal
                   {| packets := [firing_packet; two_field_calibration_packet] |}
                   initial_state
    = (Raise IndexError, st')
    /\ written_files st' = []
    /\ fst (load_calibration float_of_decimal
                             {| packets := [firing_packet; two_field_calibration_packet] |}
                             initial_state)
       = Ok tt.
Proof.
  assert (Hsmall : (List.length
                      (data_rows (map Byte.to_N
                                      (skipn 8 (data two_field_calibration_packet)))) <= 1)%nat
                   \/ (List.length
                         (hd [] (data_rows (map Byte.to_N
                                      (skipn 8 (data two_field_calibration_packet))))) <= 2)%nat)
    by (right; cbv; lia).
  exact (@export_message_unusable_table
           (example_decoder dual_dto) float_of_decimal
           {| packets := [firing_packet; two_field_calibration_packet] |}
           firing_packet two_field_calibration_packet []
           (map Byte.to_N (skipn 8 (data two_field_calibration_packet)))
           dual_dto initial_state eq_refl eq_refl eq_refl Hsmall eq_refl).
Defined.

Lemma load_calibration_table_shape_witness :
  fst (load_calibration float_of_decimal {| packets := [calibration_packet] |}
                        initial_state)
  = Ok tt
  /\ calibration_array
       (snd (load_calibration float_of_decimal {| packets := [calibration_packet] |}
                              initial_state))
     = Some (Arr2 3 (map (map float_of_decimal)
                         (data_rows (map Byte.to_N (skipn 8 calibration_data))))).
Proof.
  assert (H2 : (2 <= List.length
                      (data_rows (map Byte.to_N (skipn 8 calibration_data))))%nat)
    by (cbv; lia).
  assert (Hk : (2 <= 3)%nat) by lia.
  assert (Hall : Forall (fun v => List.length v = 3%nat)
                        (data_rows (map Byte.to_N (skipn 8 calibration_data))))
    by (cbv; repeat constructor).
  destruct (@load_calibration_table_shape float_of_decimal
              {| packets := [calibration_packet] |} calibration_packet
              (map Byte.to_N (skipn 8 calibration_data)) 3%nat initial_state
              eq_refl eq_refl H2 Hk Hall) as (Ho & Hc & _).
  split; [exact Ho | exact Hc].
Defined.

(** * [dec_2_dms] *)



(** * The export of one-dimensional data *)

Module Export1DFacts.

Import Export1D.

Local Open Scope string_scope.

Lemma append_assoc (a b c : string) : (a ++ b) ++ c = a ++ (b ++ c).
Proof. induction a as [| ch a IH]; [reflexivity |]. cbn. now rewrite IH. Qed.

Lemma read_file_latest (fs : list (string * string)) (name content : string) :
  read_file ((name, content) :: fs) name = Some content.
Proof. cbn. now rewrite String.eqb_refl. Qed.


Lemma supported_cases (ty : string) :
  supported ty = true ->
  ty = "sensor_msgs/FluidPressure" \/ ty = "sensor_msgs/Illuminance"
  \/ ty = "sensor_msgs/Imu" \/ ty = "sensor_msgs/MagneticField".
Proof.
  unfold supported. rewrite !orb_true_iff, !String.eqb_eq. tauto.
Qed.

Lemma unsupported_cases (ty : string) :
  supported ty = false ->
  (ty =? "sensor_msgs/FluidPressure") = false
  /\ (ty =? "sensor_msgs/Illuminance") = false
  /\ (ty =? "sensor_msgs/Imu") = false
  /\ (ty =? "sensor_msgs/MagneticField") = false.
Proof.
  unfold supported. rewrite !orb_false_iff. tauto.
Qed.

Section Facts.

Variable format_12f : R -> string.

(** X14.  For a topic whose message type is none of the four sensor types,
    [export_1d_data] issues its warning and then fails with
    [UnboundLocalError] at the last line, where [export_filename] was never
    bound: nothing is added to [exported_data] and no file is touched. *)
Theorem export_1d_data_unsupported_type :
  forall (topic_filter : string) (sensor_name : option string) (topic : Topic)
         (st : reader),
    getitem (source_bag st) topic_filter = Done topic ->
    supported (msg_type topic) = false ->
    exists st' : reader,
      export_1d_data format_12f topic_filter sensor_name st
      = (Fail UnboundLocalError, st')
      /\ warnings st'
         = ("The topic " ++ topic_filter ++ " is not available in this bag file!")
             :: warnings st
      /\ exported_data st' = exported_data st
      /\ files st' = files st.
Proof.
  intros topic_filter sensor_name topic st Hget Hty.
  destruct (unsupported_cases _ Hty) as (H1 & H2 & H3 & H4).
  unfold export_1d_data, bind, get_source_bag, lift. rewrite Hget.
  cbv beta iota. unfold print. cbv beta iota.
  rewrite H1, H2, H3, H4. unfold warn, ret, raise. cbv beta iota.
  eexists. repeat split.
Qed.


(** *** Files *)

Lemma append_empty_r (a : string) : a ++ "" = a.
Proof. induction a as [| ch a IH]; [reflexivity |]. cbn. now rewrite IH. Qed.

Lemma same_but_files_refl (s : reader) : same_but_files s s.
Proof. repeat split. Qed.

Lemma same_but_files_trans (s1 s2 s3 : reader) :
  same_but_files s1 s2 -> same_but_files s2 s3 -> same_but_files s1 s3.
Proof.
  unfold same_but_files. intros (A1 & A2 & A3 & A4 & A5) (B1 & B2 & B3 & B4 & B5).
  repeat split; congruence.
Qed.

Lemma set_file_run (name content : string) (s : reader) :
  exists s' : reader,
    set_file name content s = (Done tt, s')
    /\ read_file (files s') name = Some content
    /\ same_but_files s s'.
Proof.
  eexists. split; [reflexivity |]. split.
  - cbn [files]. apply read_file_latest.
  - repeat split.
Qed.

Lemma f_write_run (name text content : string) (s : reader) :
  read_file (files s) name = Some content ->
  exists s' : reader,
    f_write name text s = (Done tt, s')
    /\ read_file (files s') name = Some (content ++ text)
    /\ same_but_files s s'.
Proof.
  intros H. unfold f_write. rewrite H. apply set_file_run.
Qed.

Lemma write_messages_run (name : string) (n : nat)
      (values : R -> message -> result (list R))
      (msgs : list (R * message)) (rows : list (list R)) :
  Forall2 (fun tm r => values (fst tm) (snd tm) = Done r /\ List.length r = n)
          msgs rows ->
  forall (st : reader) (content : string),
    read_file (files st) name = Some content ->
    exists st' : reader,
      write_messages format_12f name n values msgs st = (Done tt, st')
      /\ read_file (files st') name = Some (content ++ render_rows format_12f rows)
      /\ same_but_files st st'.
Proof.
  induction 1 as [| [t msg] r msgs' rows' [Hv Hl] _ IH]; intros st content Hc.
  - exists st. cbn [write_messages render_rows]. rewrite append_empty_r.
    repeat split. exact Hc.
  - cbn [fst snd] in Hv. cbn [write_messages]. unfold bind at 1, lift. rewrite Hv.
    unfold bind at 1, lift, percent_format. rewrite Hl, Nat.eqb_refl.
    destruct (@f_write_run name (join_fields (map format_12f r) ++ newline) content st Hc)
      as (s1 & Hw & Hr & Hs).
    unfold bind at 1. rewrite Hw.
    destruct (IH s1 _ Hr) as (st' & Hrun & Hr' & Hs').
    exists st'. split; [exact Hrun |]. split.
    + rewrite Hr'. cbn [render_rows]. now rewrite append_assoc.
    + eapply same_but_files_trans; eassumption.
Qed.

Lemma export_branch_run (default_filename header : string) (n : nat)
      (values : R -> message -> result (list R)) (topic : Topic)
      (sensor_name : option string) (rows : list (list R)) (st : reader) :
  Forall2 (fun tm r => values (fst tm) (snd tm) = Done r /\ List.length r = n)
          (messages topic) rows ->
  let path := path_join (bag_unpack_dir st)
                        match sensor_name with
                        | None => default_filename
                        | Some name => name ++ ".csv"
                        end in
  exists st' : reader,
    export_branch format_12f default_filename header n values topic sensor_name st
    = (Done (Some path), st')
    /\ read_file (files st') path
       = Some ((header ++ newline) ++ render_rows format_12f rows)
    /\ same_but_files st st'.
Proof.
  intros Hrows path. unfold export_branch.
  unfold bind at 1, get_bag_unpack_dir. fold path.
  destruct (set_file_run path "" st) as (s1 & Ho & Hr1 & Hs1).
  unfold bind at 1, open_w. rewrite Ho.
  destruct (@f_write_run path (header ++ newline) "" s1 Hr1) as (s2 & Hw & Hr2 & Hs2).
  unfold bind at 1. rewrite Hw. cbn [append] in Hr2.
  destruct (@write_messages_run path n values (messages topic) rows Hrows s2 _ Hr2) as (s3 & Hm & Hr3 & Hs3).
  unfold bind at 1. rewrite Hm. unfold ret.
  exists s3. split; [reflexivity |]. split; [exact Hr3 |].
  eapply same_but_files_trans; [| exact Hs3].
  eapply same_but_files_trans; eassumption.
Qed.

(** For a supported type the chain of tests takes the branch of the
    table. *)
Lemma export_1d_data_supported (topic_filter : string) (sensor_name : option string)
      (topic : Topic) (st : reader) :
  getitem (source_bag st) topic_filter = Done topic ->
  supported (msg_type topic) = true ->
  export_1d_data format_12f topic_filter sensor_name st
  = (_ <~~ print ("DEBUG: message type of topic: " ++ topic_filter ++ " is: "
                  ++ msg_type topic) ;;
     export_filename <~~
       export_branch format_12f (default_filename_of (msg_type topic))
                     (header_of (msg_type topic)) (specifiers_of (msg_type topic))
                     (values_of (msg_type topic)) topic sensor_name ;;
     match export_filename with
     | None => raise UnboundLocalError
     | Some export_filename =>
         exported_data_append (export_filename ++ " " ++ msg_type topic ++ " "
                               ++ topic_filter)
     end) st.
Proof.
  intros Hget Hty. unfold export_1d_data.
  unfold bind at 1, get_source_bag. unfold bind at 1, lift. rewrite Hget.
  destruct (supported_cases _ Hty) as [E | [E | [E | E]]]; rewrite E; reflexivity.
Qed.

Lemma export_1d_data_run (topic_filter : string) (sensor_name : option string)
      (topic : Topic) (rows : list (list R)) (st : reader) :
  getitem (source_bag st) topic_filter = Done topic ->
  supported (msg_type topic) = true ->
  Forall2 (fun tm r => values_of (msg_type topic) (fst tm) (snd tm) = Done r
                       /\ List.length r = specifiers_of (msg_type topic))
          (messages topic) rows ->
  let path := path_join (bag_unpack_dir st)
                        match sensor_name with
                        | None => default_filename_of (msg_type topic)
                        | Some name => name ++ ".csv"
                        end in
  exists st' : reader,
    export_1d_data format_12f topic_filter sensor_name st = (Done tt, st')
    /\ read_file (files st') path
       = Some ((header_of (msg_type topic) ++ newline) ++ render_rows format_12f rows)
    /\ exported_data st'
       = (exported_data st
          ++ [(path ++ " " ++ msg_type topic ++ " " ++ topic_filter)%string])%list
    /\ source_bag st' = source_bag st
    /\ bag_unpack_dir st' = bag_unpack_dir st
    /\ warnings st' = warnings st.
Proof.
  intros Hget Hty Hrows path.
  rewrite (@export_1d_data_supported topic_filter sensor_name topic st Hget Hty).
  unfold bind at 1, print.
  set (sp := {| source_bag := source_bag st; bag_unpack_dir := bag_unpack_dir st;
                exported_data := exported_data st; files := files st;
                warnings := warnings st;
                printed := ("DEBUG: message type of topic: " ++ topic_filter
                            ++ " is: " ++ msg_type topic) :: printed st |}).
  destruct (@export_branch_run (default_filename_of (msg_type topic))
              (header_of (msg_type topic)) (specifiers_of (msg_type topic))
              (values_of (msg_type topic)) topic sensor_name rows sp Hrows)
    as (s1 & Hb & Hr & (S1 & S2 & S3 & S4 & S5)).
  cbn [bag_unpack_dir sp] in Hb, Hr. fold path in Hb, Hr.
  unfold bind at 1. rewrite Hb. unfold exported_data_append.
  eexists. split; [reflexivity |].
  cbn [files exported_data source_bag bag_unpack_dir warnings].
  repeat split; try assumption. now rewrite S3.
Qed.

Lemma values_of_typed (ty : string) (t : R) (msg : message) :
  has_type ty msg ->
  exists r : list R,
    values_of ty t msg = Done r
    /\ List.length r = specifiers_of ty
    /\ hd 0%R r = t
    /\ specifiers_of ty = columns (header_of ty).
Proof.
  destruct msg; cbn [has_type]; intros H; try contradiction; subst ty;
    eexists; repeat split.
Qed.

Lemma typed_rows (ty : string) (msgs : list (R * message)) :
  Forall (fun tm => has_type ty (snd tm)) msgs ->
  exists rows : list (list R),
    Forall2 (fun tm r => values_of ty (fst tm) (snd tm) = Done r
                         /\ List.length r = specifiers_of ty) msgs rows
    /\ Forall2 (fun tm r => hd 0%R r = fst tm
                            /\ List.length r = columns (header_of ty)) msgs rows.
Proof.
  induction 1 as [| [t msg] msgs' Hm _ (rows & IH1 & IH2)].
  - exists []. split; constructor.
  - destruct (@values_of_typed ty t msg Hm) as (r & Hv & Hl & Hh & Hc).
    exists (r :: rows). split; constructor; try assumption.
    + now split.
    + split; [exact Hh | congruence].
Qed.


(** X17.  Two topics of one sensor type, both exported without a sensor
    name, go to the same default file: after the two calls the file holds
    what the second call alone would have written, while [exported_data]
    lists the file twice, once for each topic. *)
Theorem export_1d_data_default_name_overwrites :
  forall (topic_1 topic_2 : string) (t1 t2 : Topic) (st : reader),
    getitem (source_bag st) topic_1 = Done t1 ->
    getitem (source_bag st) topic_2 = Done t2 ->
    msg_type t2 = msg_type t1 ->
    supported (msg_type t1) = true ->
    Forall (fun tm => has_type (msg_type t1) (snd tm)) (messages t1) ->
    Forall (fun tm => has_type (msg_type t2) (snd tm)) (messages t2) ->
    let path := path_join (bag_unpack_dir st) (default_filename_of (msg_type t1)) in
    exists st1 st2 st2' : reader,
      export_1d_data format_12f topic_1 None st = (Done tt, st1)
      /\ export_1d_data format_12f topic_2 None st1 = (Done tt, st2)
      /\ export_1d_data format_12f topic_2 None st = (Done tt, st2')
      /\ read_file (files st2) path = read_file (files st2') path
      /\ exported_data st2
         = (exported_data st
            ++ [(path ++ " " ++ msg_type t1 ++ " " ++ topic_1)%string;
                (path ++ " " ++ msg_type t1 ++ " " ++ topic_2)%string])%list.
Proof.
  intros topic_1 topic_2 t1 t2 st Hget1 Hget2 Hsame Hty Htyped1 Htyped2 path.
  assert (Hty2 : supported (msg_type t2) = true) by now rewrite Hsame.
  destruct (@typed_rows _ _ Htyped1) as (rows1 & Hv1 & _).
  destruct (@typed_rows _ _ Htyped2) as (rows2 & Hv2 & _).
  destruct (@export_1d_data_run topic_1 None t1 rows1 st Hget1 Hty Hv1)
    as (st1 & Hrun1 & _ & Hexp1 & Hbag1 & Hdir1 & _).
  assert (Hget2' : getitem (source_bag st1) topic_2 = Done t2) by now rewrite Hbag1.
  destruct (@export_1d_data_run topic_2 None t2 rows2 st1 Hget2' Hty2 Hv2)
    as (st2 & Hrun2 & Hfile2 & Hexp2 & _).
  destruct (@export_1d_data_run topic_2 None t2 rows2 st Hget2 Hty2 Hv2)
    as (st2' & Hrun2' & Hfile2' & _).
  rewrite Hdir1, Hsame in Hfile2, Hexp2. rewrite Hsame in Hfile2'.
  fold path in Hfile2, Hexp2, Hfile2'.
  exists st1, st2, st2'. repeat split; try assumption.
  - now rewrite Hfile2, Hfile2'.
  - rewrite Hexp2, Hexp1, <- app_assoc. reflexivity.
Qed.

(** *** The overview *)





End Facts.

Lemma export_1d_data_unsupported_type_witness :
  exists st' : reader,
    export_1d_data example_format "/phone1/android/fix" None example_reader
    = (Fail UnboundLocalError, st')
    /\ warnings st'
       = ["The topic /phone1/android/fix is not available in this bag file!"]
    /\ exported_data st' = []
    /\ files st' = [].
Proof.
  exact (@export_1d_data_unsupported_type example_format "/phone1/android/fix" None
           {| msg_type := "sensor_msgs/NavSatFix"; messages := [ (1%R, OtherMessage) ] |}
           example_reader eq_refl eq_refl).
Defined.


Lemma example_pressure_typed :
  Forall (fun tm => has_type "sensor_msgs/FluidPressure" (snd tm))
         [ (1%R, FluidPressure 1000%R 0%R); (2%R, FluidPressure 1001%R 0%R) ].
Proof. repeat constructor. Defined.


Lemma export_1d_data_default_name_overwrites_witness :
  exists st1 st2 st2' : reader,
    export_1d_data example_format "/phone1/android/barometric_pressure" None
                   example_reader
    = (Done tt, st1)
    /\ export_1d_data example_format "/note9/android/barometric_pressure" None st1
       = (Done tt, st2)
    /\ export_1d_data example_format "/note9/android/barometric_pressure" None
                      example_reader
       = (Done tt, st2')
    /\ read_file (files st2) "debug_test_camera_lidar/pressure_sensor_0.csv"
       = read_file (files st2') "debug_test_camera_lidar/pressure_sensor_0.csv".
Proof.
  assert (Htyped2 : Forall (fun tm => has_type "sensor_msgs/FluidPressure" (snd tm))
                           [ (3%R, FluidPressure 990%R 0%R) ])
    by (repeat constructor).
  destruct (@export_1d_data_default_name_overwrites example_format
              "/phone1/android/barometric_pressure"
              "/note9/android/barometric_pressure"
              {| msg_type := "sensor_msgs/FluidPressure";
                 messages := [ (1%R, FluidPressure 1000%R 0%R);
                               (2%R, FluidPressure 1001%R 0%R) ] |}
              {| msg_type := "sensor_msgs/FluidPressure";
                 messages := [ (3%R, FluidPressure 990%R 0%R) ] |}
              example_reader eq_refl eq_refl eq_refl eq_refl
              example_pressure_typed Htyped2)
    as (st1 & st2 & st2' & H1 & H2 & H3 & H4 & _).
  exists st1, st2, st2'. repeat split; assumption.
Defined.


End Export1DFacts.
